(** * Session continuity of [claude_agent_quick_start_agentcore.py]

    A shallow embedding of the marker codec, of [get_stored_session_id],
    [save_session_id] and of the entrypoint [main], with the memory client
    and the Claude SDK client as oracles of a [World], and every call to
    them recorded in a trace.

    Python [str] values are modelled as [string]; a character stands for
    its code point, so the model covers the code points below 256, with
    [str.isspace] and [str.lower] as Python defines them on that range.
    Printing is not modelled, nor is the construction of the memory client
    by [get_memory_client], which calls neither the store nor the agent. *)

From Stdlib Require Import ZArith NArith String Ascii List Bool Lia.
From stdpp Require Import base option gmap strings list.

Set Warnings "-register-all".
Open Scope string_scope.

(** [simpl] unfolds the concatenation of strings as it does that of lists. *)
#[local] Arguments String.append !_ _ / : simpl nomatch.

(** ** Python string built-ins used by the source *)
Module PyStr.

Definition code (c : ascii) : N := N_of_ascii c.

(** [c.isspace()] for a code point below 256. *)
Definition isspace (c : ascii) : bool :=
  let n := code c in
  ((9 <=? n) && (n <=? 13) || (28 <=? n) && (n <=? 31) || (n =? 32)
   || (n =? 133) || (n =? 160))%N.

(** Characters with a lowercase mapping below 256: A-Z, and the Latin-1
    capitals 0xC0-0xDE without the multiplication sign 0xD7. *)
Definition has_lower (c : ascii) : bool :=
  let n := code c in
  ((65 <=? n) && (n <=? 90) || (192 <=? n) && (n <=? 222) && negb (n =? 215))%N.

Definition lower_char (c : ascii) : ascii :=
  if has_lower c then ascii_of_N (code c + 32) else c.

(** [s.lower()] *)
Fixpoint lower (s : string) : string :=
  match s with
  | EmptyString => EmptyString
  | String c s' => String (lower_char c) (lower s')
  end.

(** [s.startswith(p)] *)
Fixpoint startswith (s p : string) {struct p} : bool :=
  match p with
  | EmptyString => true
  | String a p' =>
      match s with
      | EmptyString => false
      | String b s' => Ascii.eqb a b && startswith s' p'
      end
  end.

(** [sub in s] *)
Fixpoint contains (sub s : string) : bool :=
  startswith s sub ||
  match s with
  | EmptyString => false
  | String _ s' => contains sub s'
  end.

(** [s.replace(old, new)] for a non-empty [old]: the occurrences of [old]
    are found from left to right and do not overlap; [skip] counts the
    characters of a found occurrence that are still to be passed. *)
Fixpoint replace_from (old new : string) (skip : nat) (s : string) : string :=
  match s with
  | EmptyString => EmptyString
  | String c s' =>
      match skip with
      | S k => replace_from old new k s'
      | O =>
          if startswith s old
          then new ++ replace_from old new (String.length old - 1) s'
          else String c (replace_from old new 0 s')
      end
  end.

(** With an empty [old], Python puts [new] before every character and at
    the end. *)
Fixpoint intersperse (new s : string) : string :=
  match s with
  | EmptyString => new
  | String c s' => new ++ String c (intersperse new s')
  end.

Definition replace (s old new : string) : string :=
  match old with
  | EmptyString => intersperse new s
  | _ => replace_from old new 0 s
  end.

Fixpoint lstrip (s : string) : string :=
  match s with
  | EmptyString => EmptyString
  | String c s' => if isspace c then lstrip s' else s
  end.

Fixpoint rstrip (s : string) : string :=
  match s with
  | EmptyString => EmptyString
  | String c s' =>
      match rstrip s' with
      | EmptyString => if isspace c then EmptyString else String c EmptyString
      | r => String c r
      end
  end.

(** [s.strip()] *)
Definition strip (s : string) : string := rstrip (lstrip s).

Definition newline : string := String (ascii_of_nat 10) EmptyString.

(** [sep.join(l)] *)
Definition join (sep : string) (l : list string) : string := String.concat sep l.

(** Truth value of a [str]. *)
Definition nonempty (s : string) : bool :=
  match s with EmptyString => false | _ => true end.

End PyStr.

(** ** Python values that cross the boundaries

    The payload of a request and the events of the store are JSON-like
    values. *)
Inductive pyval :=
| PNone
| PBool (b : bool)
| PInt (z : Z)
| PStr (s : string)
| PList (l : list pyval)
| PDict (d : gmap string pyval).

(** [bool(v)] *)
Definition truthy (v : pyval) : bool :=
  match v with
  | PNone => false
  | PBool b => b
  | PInt z => negb (z =? 0)%Z
  | PStr s => PyStr.nonempty s
  | PList l => match l with [] => false | _ => true end
  | PDict d => match map_to_list d with [] => false | _ => true end
  end.

(** [type(v).__name__] *)
Definition type_name (v : pyval) : string :=
  match v with
  | PNone => "NoneType"
  | PBool _ => "bool"
  | PInt _ => "int"
  | PStr _ => "str"
  | PList _ => "list"
  | PDict _ => "dict"
  end.

(** Truth value of a [str | None]. *)
Definition truthy_opt (o : option string) : bool :=
  match o with
  | Some s => PyStr.nonempty s
  | None => false
  end.

(** ** Exceptions and outcomes *)

(** An exception, that is an instance of [Exception], which is what the
    handlers of the source catch; the source knows it by [str(e)] only.
    What is raised outside that class (the cancellation of an awaited run,
    KeyboardInterrupt, SystemExit) is caught by no handler of the source
    and is not in the model. *)
Record exn := Exception { str : string }.

Definition AttributeError (v : pyval) (attr : string) : exn :=
  Exception ("'" ++ type_name v ++ "' object has no attribute '" ++ attr ++ "'").

Inductive outcome (A : Type) :=
| Ret (a : A)
| Raise (e : exn).
Arguments Ret {A} a.
Arguments Raise {A} e.

#[global] Instance outcome_ret : MRet outcome := @Ret.
#[global] Instance outcome_bind : MBind outcome := fun A B f m =>
  match m with
  | Ret a => f a
  | Raise e => Raise e
  end.

(** [v.get(k, dflt)]: only a dict has the method. *)
Definition py_get (v : pyval) (k : string) (dflt : pyval) : outcome pyval :=
  match v with
  | PDict d => Ret (default dflt (d !! k))
  | _ => Raise (AttributeError v "get")
  end.

(** ** The session marker *)

Definition MARKER_PREFIX : string := "__SESSION__:".

(** The marker text written by [save_session_id]:
    [f"__SESSION__:{session_id}"]. *)
Definition encode (session_id : string) : string := MARKER_PREFIX ++ session_id.

(** The test and the extraction of [get_stored_session_id] on a text:
    [content.startswith("__SESSION__:")] and then
    [content.replace("__SESSION__:", "").strip()]. *)
Definition decode (content : string) : option string :=
  if PyStr.startswith content MARKER_PREFIX
  then Some (PyStr.strip (PyStr.replace content MARKER_PREFIX ""))
  else None.

(** ** Scanning the stored events *)

(** The body of the inner loop, for one message of a payload. *)
Definition scan_msg (msg : pyval) : outcome (option string) :=
  match msg with
  | PDict _ =>
      conversational ← py_get msg "conversational" (PDict ∅);
      inner ← py_get conversational "content" (PDict ∅);
      content ← py_get inner "text" (PStr "");
      match content with
      | PStr s => Ret (decode s)
      | _ => Ret None
      end
  | _ => Ret None
  end.

(** [for msg in payload: ...], leaving at the first marker. *)
Fixpoint scan_payload (payload : list pyval) : outcome (option string) :=
  match payload with
  | [] => Ret None
  | msg :: rest =>
      r ← scan_msg msg;
      match r with
      | Some session_id => Ret (Some session_id)
      | None => scan_payload rest
      end
  end.

(** [for event in events: ...] *)
Fixpoint scan_events (events : list pyval) : outcome (option string) :=
  match events with
  | [] => Ret None
  | event :: rest =>
      match event with
      | PDict d =>
          match default (PList []) (d !! "payload") with
          | PList payload =>
              r ← scan_payload payload;
              match r with
              | Some session_id => Ret (Some session_id)
              | None => scan_events rest
              end
          | _ => scan_events rest
          end
      | _ => scan_events rest
      end
  end.

(** ** The collaborators and the trace of calls made to them *)

(** System prompt - guides agent behavior and enables multi-agent
    delegation. *)
Definition SYSTEM_PROMPT : string :=
"You are a helpful assistant that can handle complex tasks.

For complex or multi-step tasks, use the Task tool to delegate to specialized sub-agents:
- Use Task for research, code exploration, or analysis that benefits from focused attention
- Use Task for parallel work when multiple independent subtasks can run concurrently
- Each sub-agent gets its own context and can use all available tools

Keep responses concise and actionable. When delegating, clearly specify what you need from each sub-agent.".

Record ClaudeAgentOptions := {
  system_prompt : string;
  max_turns : Z;
  resume : option string
}.

(** The blocks and messages that [client.receive_response()] yields. *)
Inductive ContentBlock :=
| TextBlock (text : string)
| OtherBlock.

Inductive Message :=
| AssistantMessage (content : list ContentBlock)
| ResultMessage (session_id : string)
| OtherMessage.

Record RequestContext := { ctx_session_id : option string }.

Inductive effect :=
| ListEvents (memory_id actor_id : string) (session_id : pyval) (max_results : Z)
| CreateEvent (memory_id actor_id : string) (session_id : pyval)
    (messages : list (pyval * string))
| Query (options : ClaudeAgentOptions) (prompt : pyval).

(** What the environment answers during one request: the process
    environment, [MemoryClient.list_events], [MemoryClient.create_event]
    and one run of [ClaudeSDKClient] (connect, query, receive the
    response), each of which may raise. During one request no collaborator
    is called twice with the same arguments, so that an answer per
    argument describes a collaborator with a state of its own as well. *)
Record World := {
  environ : gmap string string;
  list_events : string -> string -> pyval -> Z -> outcome (list pyval);
  create_event : string -> string -> pyval -> list (pyval * string) -> outcome unit;
  run_client : ClaudeAgentOptions -> pyval -> outcome (list Message)
}.

(** Computations that call the collaborators: the calls made so far are
    threaded through, and an exception may be raised. *)
Definition M (A : Type) : Type := list effect -> outcome A * list effect.

#[global] Instance M_ret : MRet M := fun A a t => (Ret a, t).
#[global] Instance M_bind : MBind M := fun A B f m t =>
  match m t with
  | (Ret a, t') => f a t'
  | (Raise e, t') => (Raise e, t')
  end.

Definition raise {A : Type} (e : exn) : M A := fun t => (Raise e, t).

Definition lift {A : Type} (o : outcome A) : M A := fun t => (o, t).

(** [try: body except Exception as e: handler] *)
Definition try_except {A : Type} (body : M A) (handler : exn -> M A) : M A :=
  fun t =>
    match body t with
    | (Ret a, t') => (Ret a, t')
    | (Raise e, t') => handler e t'
    end.

(** A call is recorded when it is made, whatever its outcome. *)
Definition call {A : Type} (e : effect) (answer : outcome A) : M A :=
  fun t => (answer, (t ++ [e])%list).

(** ** Memory configuration *)

(** [os.environ.get(k)], as used under [or]: a missing or empty variable
    is skipped. *)
Definition env_or (w : World) (k : string) (otherwise : string) : string :=
  match environ w !! k with
  | Some v => if PyStr.nonempty v then v else otherwise
  | None => otherwise
  end.

Definition MEMORY_ID (w : World) : string :=
  env_or w "BEDROCK_AGENTCORE_MEMORY_ID"
    (env_or w "MEMORY_ID" "claudeagentsdkdemo_mem-ASCTQAHVFO").

Definition ACTOR_ID : string := "claude_agent".

(** ** [get_stored_session_id] *)
Definition get_stored_session_id (w : World) (conversation_id : pyval)
  : M (option string) :=
  if negb (PyStr.nonempty (MEMORY_ID w)) then mret None
  else
    try_except
      (events ← call (ListEvents (MEMORY_ID w) ACTOR_ID conversation_id 10)
                     (list_events w (MEMORY_ID w) ACTOR_ID conversation_id 10);
       lift (scan_events events))
      (fun e => mret None).

(** ** [save_session_id] *)
Definition save_session_id (w : World) (conversation_id : pyval)
    (session_id : string) (user_input : pyval) (response : string) : M unit :=
  if negb (PyStr.nonempty (MEMORY_ID w)) || negb (PyStr.nonempty session_id)
  then mret tt
  else
    let messages :=
      [ (user_input, "USER");
        (PStr response, "ASSISTANT");
        (PStr (encode session_id), "OTHER") ] in
    try_except
      (call (CreateEvent (MEMORY_ID w) ACTOR_ID conversation_id messages)
            (create_event w (MEMORY_ID w) ACTOR_ID conversation_id messages))
      (fun e => mret tt).

(** ** [main] and its inner [execute_query] *)

(** The texts of the [TextBlock]s of one assistant message. *)
Fixpoint block_texts (content : list ContentBlock) : list string :=
  match content with
  | [] => []
  | TextBlock text :: rest => text :: block_texts rest
  | OtherBlock :: rest => block_texts rest
  end.

(** The [async for] over the received messages, from the state
    [(responses, new_session_id)]. *)
Fixpoint receive (msgs : list Message) (responses : list string)
    (new_session_id : option string) : list string * option string :=
  match msgs with
  | [] => (responses, new_session_id)
  | AssistantMessage content :: rest =>
      receive rest (responses ++ block_texts content)%list new_session_id
  | ResultMessage sid :: rest => receive rest responses (Some sid)
  | OtherMessage :: rest => receive rest responses new_session_id
  end.

Definition query_options (resume_session : option string) : ClaudeAgentOptions :=
  {| system_prompt := SYSTEM_PROMPT;
     max_turns := 10;
     resume := if truthy_opt resume_session then resume_session else None |}.

Definition execute_query (w : World) (prompt : pyval)
    (resume_session : option string) : M (list string * option string) :=
  let options := query_options resume_session in
  msgs ← call (Query options prompt) (run_client w options prompt);
  mret (receive msgs [] None).

(** The test of the inner [except] on [str(e).lower()]. *)
Definition session_expired (error_msg : string) : bool :=
  PyStr.contains "no conversation found" error_msg
  || PyStr.contains "exit code 1" error_msg.

(** What [main] returns: [{"error": ...}] or
    [{"response": ..., "conversation_id": ..., "session_id": ...}]. *)
Inductive reply :=
| ReplyError (error : string)
| ReplyOk (response : string) (conversation_id : pyval) (session_id : option string).

(** The conversation id: from the payload, else from the AgentCore
    session, else ["default"]. *)
Definition conversation_of (p : gmap string pyval) (context : option RequestContext)
  : pyval :=
  let conversation_id := default PNone (p !! "conversation_id") in
  if truthy conversation_id then conversation_id
  else
    match context with
    | Some ctx =>
        if truthy_opt (ctx_session_id ctx)
        then PStr (default "" (ctx_session_id ctx))
        else PStr "default"
    | None => PStr "default"
    end.

Definition main (w : World) (payload : option (gmap string pyval))
    (context : option RequestContext) : M reply :=
  match payload with
  | None => mret (ReplyError "No payload provided")
  | Some p =>
      if negb (truthy (PDict p)) then mret (ReplyError "No payload provided")
      else
        let prompt := default (PStr "") (p !! "prompt") in
        if negb (truthy prompt) then mret (ReplyError "No prompt provided")
        else
          let conversation_id := conversation_of p context in
          stored_session ← get_stored_session_id w conversation_id;
          r ← try_except
                (q ← (if truthy_opt stored_session
                      then
                        try_except
                          (execute_query w prompt stored_session)
                          (fun e =>
                             let error_msg := PyStr.lower (str e) in
                             if session_expired error_msg
                             then execute_query w prompt None
                             else raise e)
                      else execute_query w prompt None);
                 mret (inr q))
                (fun e => mret (inl (str e)));
          match r with
          | inl error => mret (ReplyError error)
          | inr (full_response, session_id) =>
              let response_text := PyStr.join PyStr.newline full_response in
              _ ← match session_id with
                  | Some sid =>
                      if PyStr.nonempty sid
                      then save_session_id w conversation_id sid prompt
                             response_text
                      else mret tt
                  | None => mret tt
                  end;
              mret (ReplyOk response_text conversation_id session_id)
          end
  end.

(** Running a computation from the empty trace. *)
Definition run {A : Type} (m : M A) : outcome A * list effect := m [].

(** ** Vocabulary of the statements *)

(** The messages of one event that the scan visits. *)
Definition payload_of (event : pyval) : list pyval :=
  match event with
  | PDict d =>
      match default (PList []) (d !! "payload") with
      | PList payload => payload
      | _ => []
      end
  | _ => []
  end.

(** All the messages visited, in the order of the scan. *)
Definition messages (events : list pyval) : list pyval :=
  flat_map payload_of events.

(** A message in the format the source documents:
    [{"conversational": {"content": {"text": ...}, "role": ...}}]. *)
Definition conversational_msg (content role : pyval) : pyval :=
  PDict {[ "conversational" :=
             PDict (<[ "role" := role ]> {[ "content" := PDict {[ "text" := content ]} ]}) ]}.

(** The event the store lists for one batch given to [create_event]. *)
Definition stored_event (batch : list (pyval * string)) : pyval :=
  PDict {[ "payload" :=
             PList (map (fun m => conversational_msg (fst m) (PStr (snd m))) batch) ]}.

(** The runs of the agent in a trace, by their options. *)
Fixpoint queries (t : list effect) : list ClaudeAgentOptions :=
  match t with
  | [] => []
  | Query options _ :: rest => options :: queries rest
  | _ :: rest => queries rest
  end.

(** The batches given to the store in a trace. *)
Fixpoint appends (t : list effect) : list (pyval * list (pyval * string)) :=
  match t with
  | [] => []
  | CreateEvent _ _ conversation_id batch :: rest =>
      (conversation_id, batch) :: appends rest
  | _ :: rest => appends rest
  end.

(** No leading and no trailing whitespace. *)
Fixpoint last_char (s : string) : option ascii :=
  match s with
  | EmptyString => None
  | String c EmptyString => Some c
  | String _ s' => last_char s'
  end.

Definition outer_space (s : string) : bool :=
  match s with
  | EmptyString => false
  | String c _ => PyStr.isspace c
  end
  || match last_char s with
     | Some c => PyStr.isspace c
     | None => false
     end.

(** [sub] occurs in [s]. *)
Definition occurs (sub s : string) : Prop :=
  exists a b, s = a ++ sub ++ b.

(** The capital of an ASCII small letter; other characters have none. *)
Definition capital (d : ascii) : ascii :=
  let n := PyStr.code d in
  if ((97 <=? n) && (n <=? 122))%N then ascii_of_N (n - 32) else d.

(** [m] spells [signature] up to the case of its letters. *)
Fixpoint case_variant (m signature : string) : bool :=
  match m, signature with
  | EmptyString, EmptyString => true
  | String c m', String d signature' =>
      (Ascii.eqb c d || Ascii.eqb c (capital d)) && case_variant m' signature'
  | _, _ => false
  end.

(** A failure message carries one of the two signatures, in any case. *)
Definition has_signature (msg : string) : Prop :=
  exists a m b, msg = a ++ m ++ b /\
    (case_variant m "no conversation found" = true
     \/ case_variant m "exit code 1" = true).

(** The resolver as the specification words it (section 4.2), to be
    compared with [scan_events]: decoding is attempted on the messages of
    role OTHER only, and the first that decodes gives the handle. *)
Definition role_of (msg : pyval) : option string :=
  match msg with
  | PDict d =>
      match d !! "conversational" with
      | Some (PDict c) =>
          match c !! "role" with
          | Some (PStr r) => Some r
          | _ => None
          end
      | _ => None
      end
  | _ => None
  end.

Definition text_of (msg : pyval) : option string :=
  match msg with
  | PDict d =>
      match d !! "conversational" with
      | Some (PDict c) =>
          match c !! "content" with
          | Some (PDict k) =>
              match k !! "text" with
              | Some (PStr s) => Some s
              | _ => None
              end
          | _ => None
          end
      | _ => None
      end
  | _ => None
  end.

Fixpoint spec_scan (msgs : list pyval) : option string :=
  match msgs with
  | [] => None
  | msg :: rest =>
      match role_of msg, text_of msg with
      | Some r, Some s =>
          if String.eqb r "OTHER"
          then match decode s with
               | Some handle => Some handle
               | None => spec_scan rest
               end
          else spec_scan rest
      | _, _ => spec_scan rest
      end
  end.

Definition spec_resolve (events : list pyval) : option string :=
  spec_scan (messages events).

(** ** Worlds for the scenarios *)

Definition world_of (events : outcome (list pyval))
    (client : ClaudeAgentOptions -> outcome (list Message))
    (store : outcome unit) : World :=
  {| environ := ∅;
     list_events := fun _ _ _ _ => events;
     create_event := fun _ _ _ _ => store;
     run_client := fun options _ => client options |}.

(** The same world with another answer of [create_event]. *)
Definition with_create_event (w : World)
    (ce : string -> string -> pyval -> list (pyval * string) -> outcome unit) : World :=
  {| environ := environ w;
     list_events := list_events w;
     create_event := ce;
     run_client := run_client w |}.

Definition request (prompt : string) (conversation_id : string) : gmap string pyval :=
  <[ "conversation_id" := PStr conversation_id ]> {[ "prompt" := PStr prompt ]}.

(** One turn of the agent: some text, then the result message. *)
Definition answer (text session_id : string) : outcome (list Message) :=
  Ret [AssistantMessage [TextBlock text]; ResultMessage session_id].

(** A store holding the batch of a turn whose prompt itself began with the
    marker prefix. *)
Definition hijack_events : list pyval :=
  [ stored_event [ (PStr "__SESSION__:evil", "USER");
                   (PStr "hi", "ASSISTANT");
                   (PStr "__SESSION__:sess-1", "OTHER") ] ].

(** A store holding one ordinary batch. *)
Definition first_turn_events : list pyval :=
  [ stored_event [ (PStr "hello", "USER");
                   (PStr "hi there", "ASSISTANT");
                   (PStr "__SESSION__:sess-1", "OTHER") ] ].

(** A client whose resumed run fails with [msg] and whose fresh run gives
    [fresh]. *)
Definition stale_client (msg : string) (fresh : outcome (list Message))
    (options : ClaudeAgentOptions) : outcome (list Message) :=
  match resume options with
  | Some _ => Raise (Exception msg)
  | None => fresh
  end.

(** ** Further vocabulary: configuration, streams and traces *)

(** [get_memory_client]: the region the memory client is built for,
    [os.environ.get("AWS_REGION", "us-west-2")]. *)
Definition region_name (w : World) : string :=
  default "us-west-2" (environ w !! "AWS_REGION").

(** A variable of the environment is set to a non-empty value. *)
Definition env_set (w : World) (k : string) : bool :=
  match environ w !! k with
  | Some v => PyStr.nonempty v
  | None => false
  end.

(** The texts one received message adds to the responses. *)
Definition message_texts (m : Message) : list string :=
  match m with
  | AssistantMessage content => block_texts content
  | _ => []
  end.

Definition is_result (m : Message) : bool :=
  match m with
  | ResultMessage _ => true
  | _ => false
  end.

(** The session id of the last result message of a stream, if there is
    one, read from the end of the stream. *)
Fixpoint last_result (msgs : list Message) : option string :=
  match msgs with
  | [] => None
  | m :: rest =>
      match last_result rest with
      | Some sid => Some sid
      | None =>
          match m with
          | ResultMessage sid => Some sid
          | _ => None
          end
      end
  end.

(** What the scan reads in a value held as the text of a message. *)
Definition content_decode (content : pyval) : option string :=
  match content with
  | PStr s => decode s
  | _ => None
  end.

(** The run of the agent that decides a turn gave [msgs]: the resumed run
    when a handle was resolved and that run succeeded, the fresh run when
    no handle was resolved or when the resumed run failed as an expired
    session. *)
Definition decisive_run (w : World) (prompt : pyval) (stored : option string)
    (msgs : list Message) : Prop :=
  if truthy_opt stored
  then run_client w (query_options stored) prompt = Ret msgs
       \/ (exists e, run_client w (query_options stored) prompt = Raise e
                     /\ session_expired (PyStr.lower (str e)) = true
                     /\ run_client w (query_options None) prompt = Ret msgs)
  else run_client w (query_options None) prompt = Ret msgs.

(** A text made of whitespace only. *)
Fixpoint blank (s : string) : bool :=
  match s with
  | EmptyString => true
  | String c s' => PyStr.isspace c && blank s'
  end.

(** The batch that [save_session_id] gives to the store. *)
Definition saved_batch (user_input : pyval) (response session_id : string)
  : list (pyval * string) :=
  [ (user_input, "USER");
    (PStr response, "ASSISTANT");
    (PStr (encode session_id), "OTHER") ].

(** The trace of a turn, from its parts: the listing, then the runs of the
    agent, then the batches given to the store. *)
Definition turn_trace (w : World) (conversation_id prompt : pyval)
    (runs : list ClaudeAgentOptions)
    (batches : list (pyval * list (pyval * string))) : list effect :=
  (ListEvents (MEMORY_ID w) ACTOR_ID conversation_id 10
   :: map (fun options => Query options prompt) runs
   ++ map (fun b => CreateEvent (MEMORY_ID w) ACTOR_ID (fst b) (snd b)) batches)%list.

(** ** The scenarios of the specification, run on the model *)

Example scenario_first_turn :
  run (main (world_of (Ret []) (fun _ => answer "hi there" "sess-1") (Ret tt))
            (Some (request "hello" "c1")) None)
  = (Ret (ReplyOk "hi there" (PStr "c1") (Some "sess-1")),
     [ ListEvents "claudeagentsdkdemo_mem-ASCTQAHVFO" "claude_agent" (PStr "c1") 10;
       Query (query_options None) (PStr "hello");
       CreateEvent "claudeagentsdkdemo_mem-ASCTQAHVFO" "claude_agent" (PStr "c1")
         [ (PStr "hello", "USER"); (PStr "hi there", "ASSISTANT");
           (PStr "__SESSION__:sess-1", "OTHER") ] ]).
Proof. vm_compute. reflexivity. Qed.

Example scenario_second_turn :
  run (main (world_of (Ret first_turn_events) (fun _ => answer "ok" "sess-2") (Ret tt))
            (Some (request "continue" "c1")) None)
  = (Ret (ReplyOk "ok" (PStr "c1") (Some "sess-2")),
     [ ListEvents "claudeagentsdkdemo_mem-ASCTQAHVFO" "claude_agent" (PStr "c1") 10;
       Query (query_options (Some "sess-1")) (PStr "continue");
       CreateEvent "claudeagentsdkdemo_mem-ASCTQAHVFO" "claude_agent" (PStr "c1")
         [ (PStr "continue", "USER"); (PStr "ok", "ASSISTANT");
           (PStr "__SESSION__:sess-2", "OTHER") ] ]).
Proof. vm_compute. reflexivity. Qed.

Example scenario_stale_handle :
  fst (run (main (world_of (Ret [stored_event [(PStr "__SESSION__:sess-x", "OTHER")]])
                   (stale_client "No conversation found for sess-x"
                      (answer "ok" "sess-y"))
                   (Ret tt))
                 (Some (request "continue" "c1")) None))
  = Ret (ReplyOk "ok" (PStr "c1") (Some "sess-y")).
Proof. vm_compute. reflexivity. Qed.

(** A malformed message before the marker makes the scan raise, and the
    resolver answers none. *)
Example scenario_malformed_event :
  run (get_stored_session_id
         (world_of (Ret (PDict {[ "payload" :=
                                   PList [PDict {[ "conversational" := PNone ]}] ]}
                         :: first_turn_events))
                   (fun _ => answer "ok" "sess-2") (Ret tt))
         (PStr "c1"))
  = (Ret None, [ListEvents "claudeagentsdkdemo_mem-ASCTQAHVFO" "claude_agent" (PStr "c1") 10]).
Proof. vm_compute. reflexivity. Qed.

(** A store that refuses the append does not change the reply. *)
Example scenario_append_fails :
  fst (run (main (world_of (Ret []) (fun _ => answer "hi there" "sess-1")
                   (Raise (Exception "throttled")))
                 (Some (request "hello" "c1")) None))
  = Ret (ReplyOk "hi there" (PStr "c1") (Some "sess-1")).
Proof. vm_compute. reflexivity. Qed.

(** ** Strings *)
Section StringFacts.

Lemma startswith_app (p b : string) : PyStr.startswith (p ++ b) p = true.
Proof.
  induction p as [|a p IH]; simpl; [reflexivity|].
  rewrite Ascii.eqb_refl. exact IH.
Qed.

Lemma startswith_inv (s p : string) :
  PyStr.startswith s p = true -> exists b, s = p ++ b.
Proof.
  revert s. induction p as [|a p IH]; intros s H; simpl in *.
  - exists s. reflexivity.
  - destruct s as [|c s]; [discriminate|].
    apply andb_prop in H as [Hc Hs].
    apply Ascii.eqb_eq in Hc. subst c.
    destruct (IH _ Hs) as [b ->]. exists b. reflexivity.
Qed.

Lemma append_assoc (a b c : string) : (a ++ b) ++ c = a ++ (b ++ c).
Proof. induction a as [|x a IH]; simpl; [reflexivity | now rewrite IH]. Qed.

Lemma append_nil_r (a : string) : a ++ "" = a.
Proof. induction a as [|x a IH]; simpl; [reflexivity | now rewrite IH]. Qed.

Lemma length_append (a b : string) :
  String.length (a ++ b) = String.length a + String.length b.
Proof. induction a as [|x a IH]; simpl; [reflexivity | now rewrite IH]. Qed.

Lemma contains_here (sub s : string) :
  PyStr.startswith s sub = true -> PyStr.contains sub s = true.
Proof. destruct s; simpl; intros ->; reflexivity. Qed.

Lemma contains_occurs (sub s : string) :
  PyStr.contains sub s = true <-> occurs sub s.
Proof.
  split.
  - induction s as [|c s IH]; simpl; intros H.
    + apply orb_prop in H as [H|H]; [|discriminate].
      destruct (startswith_inv _ _ H) as [b Hb]. exists "", b. exact Hb.
    + apply orb_prop in H as [H|H].
      * destruct (startswith_inv _ _ H) as [b Hb]. exists "", b. exact Hb.
      * destruct (IH H) as (a & b & ->). exists (String c a), b. reflexivity.
  - intros (a & b & ->). induction a as [|c a IH]; simpl.
    + apply contains_here, startswith_app.
    + rewrite IH. apply orb_true_r.
Qed.

Lemma contains_tail (sub : string) (c : ascii) (s : string) :
  PyStr.contains sub (String c s) = false ->
  PyStr.startswith (String c s) sub = false /\ PyStr.contains sub s = false.
Proof. simpl. intros H. apply orb_false_elim in H. exact H. Qed.

Lemma replace_from_absent (old new s : string) :
  PyStr.contains old s = false -> PyStr.replace_from old new 0 s = s.
Proof.
  induction s as [|c s IH]; intros H; [reflexivity|].
  destruct (contains_tail _ _ _ H) as [Hs Ht].
  cbn [PyStr.replace_from]. rewrite Hs, (IH Ht). reflexivity.
Qed.

Lemma lstrip_id (s : string) :
  match s with EmptyString => false | String c _ => PyStr.isspace c end = false ->
  PyStr.lstrip s = s.
Proof. destruct s as [|c s]; simpl; [reflexivity|]. intros ->. reflexivity. Qed.

Lemma rstrip_id (s : string) :
  match last_char s with Some c => PyStr.isspace c | None => false end = false ->
  PyStr.rstrip s = s.
Proof.
  induction s as [|c s IH]; [reflexivity|].
  destruct s as [|d s].
  - simpl. intros ->. reflexivity.
  - intros H. change (last_char (String c (String d s))) with (last_char (String d s)) in H.
    specialize (IH H). cbn [PyStr.rstrip] in *. rewrite IH. reflexivity.
Qed.

Lemma strip_id (s : string) : outer_space s = false -> PyStr.strip s = s.
Proof.
  unfold outer_space, PyStr.strip. intros H.
  apply orb_false_elim in H as [Hl Hr].
  rewrite (lstrip_id _ Hl). apply rstrip_id, Hr.
Qed.

Lemma decode_encode (h : string) :
  decode (encode h) =
  Some (PyStr.strip (PyStr.replace_from MARKER_PREFIX "" 0 h)).
Proof. reflexivity. Qed.

Lemma decode_prefix (s : string) :
  decode s = if PyStr.startswith s MARKER_PREFIX
             then Some (PyStr.strip (PyStr.replace s MARKER_PREFIX ""))
             else None.
Proof. reflexivity. Qed.

End StringFacts.

(** ** The marker codec *)

(** C1, as amended: a handle that neither begins nor ends with whitespace
    and in which the marker prefix does not occur is read back exactly,
    [decode (encode h) = h]. *)
Theorem decode_encode_roundtrip (h : string) :
  outer_space h = false ->
  PyStr.contains MARKER_PREFIX h = false ->
  decode (encode h) = Some h.
Proof.
  intros Hsp Hocc. rewrite decode_encode.
  rewrite (replace_from_absent _ _ _ Hocc), (strip_id _ Hsp). reflexivity.
Qed.

Lemma decode_encode_roundtrip_witness :
  outer_space "sess-1" = false /\
  PyStr.contains MARKER_PREFIX "sess-1" = false /\
  decode (encode "sess-1") = Some "sess-1".
Proof.
  split; [reflexivity|]. split; [reflexivity|].
  apply (decode_encode_roundtrip "sess-1"); reflexivity.
Defined.

(** C1, as stated, fails: the handle [" a"] is not empty and comes back
    without its leading blank. *)
Lemma decode_encode_not_exact :
  ~ (forall h : string, h <> "" -> decode (encode h) = Some h).
Proof.
  intros H. specialize (H " a"). 
  assert (Hd : decode (encode " a") = Some "a") by reflexivity.
  rewrite Hd in H. assert (Hn : " a" <> "") by discriminate.
  specialize (H Hn). discriminate H.
Qed.

(** C2, as amended: [decode] gives a handle, possibly the empty one,
    exactly on the texts that start with the marker prefix; every text that
    is not the prefix followed by some text, the empty text among them,
    gives none; and whatever value a message holds as its text, the scan of
    the message returns and does not raise. *)
Theorem decode_only_marked (s : string) :
  (PyStr.startswith s MARKER_PREFIX = true <-> exists h, decode s = Some h) /\
  (decode s = None \/ exists t, s = encode t) /\
  decode "" = None /\
  (forall content role : pyval,
     scan_msg (conversational_msg content role)
     = Ret (match content with PStr t => decode t | _ => None end)).
Proof.
  split; [|split; [|split]].
  - rewrite decode_prefix. split.
    + intros ->. eexists. reflexivity.
    + intros [h Hh]. destruct (PyStr.startswith s MARKER_PREFIX);
        [reflexivity | discriminate].
  - rewrite decode_prefix.
    destruct (PyStr.startswith s MARKER_PREFIX) eqn:E; [right | left; reflexivity].
    destruct (startswith_inv _ _ E) as [b ->]. exists b. reflexivity.
  - reflexivity.
  - intros content role. unfold scan_msg, conversational_msg, py_get.
    rewrite lookup_singleton_eq. cbn.
    rewrite lookup_insert_ne by discriminate.
    rewrite lookup_singleton_eq. cbn.
    rewrite lookup_singleton_eq. cbn.
    destruct content; reflexivity.
Qed.

(** C2, as stated, fails: the bare prefix is not the encoding of a
    non-empty handle, and yet it decodes, to the empty handle. *)
Lemma decode_bare_prefix :
  ~ (forall s : string,
       (forall h : string, h <> "" -> s <> encode h) -> decode s = None).
Proof.
  intros H. specialize (H MARKER_PREFIX).
  assert (Hd : decode MARKER_PREFIX = Some "") by reflexivity.
  rewrite Hd in H. enough (Some "" = @None string) by discriminate.
  apply H. intros h Hh Heq. apply Hh.
  destruct h; [reflexivity|]. discriminate Heq.
Qed.

(** ** The resolver *)
Section Resolver.

Lemma env_or_nonempty (w : World) (k otherwise : string) :
  PyStr.nonempty otherwise = true -> PyStr.nonempty (env_or w k otherwise) = true.
Proof.
  intros H. unfold env_or. destruct (environ w !! k) as [v|]; [|exact H].
  destruct (PyStr.nonempty v) eqn:E; [exact E | exact H].
Qed.

Lemma MEMORY_ID_nonempty (w : World) : PyStr.nonempty (MEMORY_ID w) = true.
Proof. unfold MEMORY_ID. do 2 apply env_or_nonempty. reflexivity. Qed.

Lemma scan_conversational_msg (content role : pyval) :
  scan_msg (conversational_msg content role)
  = Ret (match content with PStr t => decode t | _ => None end).
Proof.
  unfold scan_msg, conversational_msg, py_get.
  rewrite lookup_singleton_eq. cbn.
  rewrite lookup_insert_ne by discriminate.
  rewrite lookup_singleton_eq. cbn.
  rewrite lookup_singleton_eq. cbn.
  destruct content; reflexivity.
Qed.

Lemma scan_payload_app (a b : list pyval) :
  scan_payload (a ++ b)%list =
  match scan_payload a with
  | Ret None => scan_payload b
  | r => r
  end.
Proof.
  induction a as [|m a IH]; [reflexivity|].
  cbn [scan_payload app]. destruct (scan_msg m) as [[h|]|e]; cbn; [reflexivity| |reflexivity].
  exact IH.
Qed.

Lemma scan_events_messages (events : list pyval) :
  scan_events events = scan_payload (messages events).
Proof.
  induction events as [|ev events IH]; [reflexivity|].
  unfold messages. cbn [flat_map]. fold (messages events).
  rewrite scan_payload_app, <- IH.
  destruct ev as [| | | | |d]; try reflexivity.
  cbn [scan_events payload_of].
  destruct (default (PList []) (d !! "payload")); reflexivity.
Qed.

Lemma scan_payload_first (pre post : list pyval) (m : pyval) (h : string) :
  Forall (fun x => scan_msg x = Ret None) pre ->
  scan_msg m = Ret (Some h) ->
  scan_payload (pre ++ m :: post)%list = Ret (Some h).
Proof.
  intros Hpre Hm. induction Hpre as [|x pre Hx _ IH]; cbn [scan_payload app].
  - rewrite Hm. reflexivity.
  - rewrite Hx. exact IH.
Qed.


(** What [get_stored_session_id] returns, from the answer of the store. *)
Lemma get_stored_session_id_run (w : World) (c : pyval) (t : list effect) :
  get_stored_session_id w c t =
  (Ret match list_events w (MEMORY_ID w) ACTOR_ID c 10 with
       | Ret events =>
           match scan_events events with
           | Ret r => r
           | Raise _ => None
           end
       | Raise _ => None
       end,
   (t ++ [ListEvents (MEMORY_ID w) ACTOR_ID c 10])%list).
Proof.
  unfold get_stored_session_id. rewrite MEMORY_ID_nonempty. cbn.
  unfold try_except, mbind, M_bind, call, lift.
  destruct (list_events w (MEMORY_ID w) ACTOR_ID c 10) as [events|e]; [|reflexivity].
  destruct (scan_events events) as [r|e]; reflexivity.
Qed.

End Resolver.

(** C3, as amended: the resolver reads the messages of the events in the
    order returned, whatever their role, and returns the handle of the
    first message whose text decodes, once the messages before it were
    read without error and without a match; the messages after it do not
    matter. *)
Theorem resolve_first_decodable (w : World) (conversation_id : pyval)
    (events pre post : list pyval) (text : string) (role : pyval)
    (handle : string) :
  list_events w (MEMORY_ID w) ACTOR_ID conversation_id 10 = Ret events ->
  messages events = (pre ++ conversational_msg (PStr text) role :: post)%list ->
  Forall (fun m => scan_msg m = Ret None) pre ->
  decode text = Some handle ->
  scan_events events = scan_payload (messages events) /\
  run (get_stored_session_id w conversation_id)
  = (Ret (Some handle), [ListEvents (MEMORY_ID w) ACTOR_ID conversation_id 10]).
Proof.
  intros Hlist Hmsgs Hpre Hdec. split; [apply scan_events_messages|].
  unfold run. rewrite get_stored_session_id_run, Hlist.
  rewrite scan_events_messages, Hmsgs.
  rewrite (scan_payload_first pre post _ handle Hpre); [reflexivity|].
  rewrite scan_conversational_msg. f_equal. exact Hdec.
Qed.

Lemma resolve_first_decodable_witness :
  run (get_stored_session_id
         (world_of (Ret first_turn_events) (fun _ => answer "ok" "sess-2") (Ret tt))
         (PStr "c1"))
  = (Ret (Some "sess-1"),
     [ListEvents "claudeagentsdkdemo_mem-ASCTQAHVFO" ACTOR_ID (PStr "c1") 10]).
Proof.
  refine (proj2 (resolve_first_decodable
            (world_of (Ret first_turn_events) (fun _ => answer "ok" "sess-2") (Ret tt))
            (PStr "c1") first_turn_events
            [conversational_msg (PStr "hello") (PStr "USER");
             conversational_msg (PStr "hi there") (PStr "ASSISTANT")]
            [] "__SESSION__:sess-1" (PStr "OTHER") "sess-1" _ _ _ _)).
  - reflexivity.
  - vm_compute. reflexivity.
  - repeat constructor.
  - reflexivity.
Defined.

(** C3, as stated, fails: in the batch of a turn whose prompt began with
    the marker prefix, the only message of role OTHER that decodes holds
    ["sess-1"], and the resolver returns the text of the USER message. *)
Lemma resolve_ignores_role :
  spec_resolve hijack_events = Some "sess-1" /\
  fst (run (get_stored_session_id
              (world_of (Ret hijack_events) (fun _ => answer "ok" "sess-2") (Ret tt))
              (PStr "c1")))
  = Ret (Some "evil").
Proof. split; vm_compute; reflexivity. Qed.

(** ** The controller *)
Section Controller.

Lemma lookup_truthy (p : gmap string pyval) (k : string) (v : pyval) :
  p !! k = Some v -> truthy (PDict p) = true.
Proof.
  intros H. cbn. destruct (map_to_list p) as [|x l] eqn:E; [|reflexivity].
  apply map_to_list_empty_iff in E. subst p. rewrite lookup_empty in H.
  discriminate.
Qed.

Lemma prompt_truthy (p : gmap string pyval) :
  truthy (default (PStr "") (p !! "prompt")) = true -> truthy (PDict p) = true.
Proof.
  destruct (p !! "prompt") as [v|] eqn:E; [|discriminate].
  intros _. exact (lookup_truthy _ _ _ E).
Qed.

Lemma execute_query_run (w : World) (prompt : pyval) (r : option string)
    (t : list effect) :
  execute_query w prompt r t =
  (match run_client w (query_options r) prompt with
   | Ret msgs => Ret (receive msgs [] None)
   | Raise e => Raise e
   end,
   (t ++ [Query (query_options r) prompt])%list).
Proof.
  unfold execute_query, mbind, M_bind, call.
  destruct (run_client w (query_options r) prompt); reflexivity.
Qed.

Lemma save_session_id_run (w : World) (c : pyval) (sid : string)
    (u : pyval) (r : string) (t : list effect) :
  PyStr.nonempty sid = true ->
  save_session_id w c sid u r t =
  (Ret tt,
   (t ++ [CreateEvent (MEMORY_ID w) ACTOR_ID c
            [(u, "USER"); (PStr r, "ASSISTANT"); (PStr (encode sid), "OTHER")]])%list).
Proof.
  intros H. unfold save_session_id. rewrite MEMORY_ID_nonempty, H. cbn.
  unfold try_except, call.
  destruct (create_event w _ _ _ _) as [[]|e]; reflexivity.
Qed.

(** The handle found in the store for a conversation. *)
Lemma resolved_handle (w : World) (c : pyval) (o : option string) :
  fst (run (get_stored_session_id w c)) = Ret o ->
  forall t, get_stored_session_id w c t
            = (Ret o, (t ++ [ListEvents (MEMORY_ID w) ACTOR_ID c 10])%list).
Proof.
  unfold run. rewrite get_stored_session_id_run. cbn [fst]. intros H t.
  rewrite get_stored_session_id_run. rewrite H. reflexivity.
Qed.

Lemma save_session_id_trace (w : World) (c : pyval) (sid : string)
    (u : pyval) (r : string) (t : list effect) :
  save_session_id w c sid u r t =
  (Ret tt,
   if PyStr.nonempty sid
   then (t ++ [CreateEvent (MEMORY_ID w) ACTOR_ID c
                 [(u, "USER"); (PStr r, "ASSISTANT"); (PStr (encode sid), "OTHER")]])%list
   else t).
Proof.
  destruct (PyStr.nonempty sid) eqn:E; [apply save_session_id_run, E|].
  unfold save_session_id. rewrite MEMORY_ID_nonempty, E. reflexivity.
Qed.

End Controller.

Ltac enter_main Hprompt :=
  unfold run, main;
  rewrite (prompt_truthy _ Hprompt), Hprompt;
  cbn [negb];
  unfold mbind, M_bind.

Section ResumeFailure.

Variables (w : World) (p : gmap string pyval) (context : option RequestContext).
Variables (h : string) (e : exn).

Hypothesis Hprompt : truthy (default (PStr "") (p !! "prompt")) = true.
Hypothesis Hstored :
  fst (run (get_stored_session_id w (conversation_of p context))) = Ret (Some h).
Hypothesis Hh : PyStr.nonempty h = true.
Hypothesis Hfail : run_client w (query_options (Some h)) (default (PStr "") (p !! "prompt")) = Raise e.

(** A failure of the resumed run that is not classified as an expired
    session ends the turn. *)
Lemma resume_failure_fatal :
  session_expired (PyStr.lower (str e)) = false ->
  run (main w (Some p) context)
  = (Ret (ReplyError (str e)),
     [ ListEvents (MEMORY_ID w) ACTOR_ID (conversation_of p context) 10;
       Query (query_options (Some h)) (default (PStr "") (p !! "prompt")) ]).
Proof.
  intros Hclass.
  enter_main Hprompt.
  rewrite (resolved_handle _ _ _ Hstored).
  unfold try_except. cbn [truthy_opt]. rewrite Hh.
  rewrite execute_query_run, Hfail, Hclass.
  reflexivity.
Qed.

(** A failure of the resumed run that is classified as an expired session
    is followed by one fresh run, whose outcome decides the turn. *)
Lemma resume_failure_fallback :
  session_expired (PyStr.lower (str e)) = true ->
  map resume (queries (snd (run (main w (Some p) context)))) = [Some h; None] /\
  fst (run (main w (Some p) context))
  = match run_client w (query_options None) (default (PStr "") (p !! "prompt")) with
    | Ret msgs =>
        Ret (ReplyOk (PyStr.join PyStr.newline (fst (receive msgs [] None)))
                     (conversation_of p context) (snd (receive msgs [] None)))
    | Raise e' => Ret (ReplyError (str e'))
    end.
Proof.
  intros Hclass.
  enter_main Hprompt.
  rewrite (resolved_handle _ _ _ Hstored).
  unfold try_except. cbn [truthy_opt]. rewrite Hh.
  rewrite execute_query_run, Hfail, Hclass.
  rewrite execute_query_run.
  destruct (run_client w (query_options None) _) as [msgs|e'].
  - cbn [mret M_ret]. destruct (receive msgs [] None) as [full sid].
    destruct sid as [sid|]; [|split; cbn; rewrite ?Hh; reflexivity].
    destruct (PyStr.nonempty sid) eqn:Hsid.
    + rewrite save_session_id_run by exact Hsid. split; cbn; rewrite ?Hh; reflexivity.
    + split; cbn; rewrite ?Hh; reflexivity.
  - split; cbn; rewrite ?Hh; reflexivity.
Qed.

End ResumeFailure.

(** C6: when the resumed run fails with a message that carries neither
    signature, the agent is not run again and the reply is the error with
    the text of the exception as it is. *)
Theorem unrelated_failure_is_fatal (w : World) (p : gmap string pyval)
    (context : option RequestContext) (h : string) (e : exn) :
  truthy (default (PStr "") (p !! "prompt")) = true ->
  fst (run (get_stored_session_id w (conversation_of p context))) = Ret (Some h) ->
  PyStr.nonempty h = true ->
  run_client w (query_options (Some h)) (default (PStr "") (p !! "prompt")) = Raise e ->
  session_expired (PyStr.lower (str e)) = false ->
  run (main w (Some p) context)
  = (Ret (ReplyError (str e)),
     [ ListEvents (MEMORY_ID w) ACTOR_ID (conversation_of p context) 10;
       Query (query_options (Some h)) (default (PStr "") (p !! "prompt")) ]).
Proof. apply resume_failure_fatal. Qed.

Lemma unrelated_failure_is_fatal_witness :
  run (main (world_of (Ret first_turn_events)
                      (stale_client "Connection refused" (answer "ok" "sess-2"))
                      (Ret tt))
            (Some (request "continue" "c1")) None)
  = (Ret (ReplyError "Connection refused"),
     [ ListEvents "claudeagentsdkdemo_mem-ASCTQAHVFO" ACTOR_ID (PStr "c1") 10;
       Query (query_options (Some "sess-1")) (PStr "continue") ]).
Proof.
  apply (unrelated_failure_is_fatal
           (world_of (Ret first_turn_events)
                     (stale_client "Connection refused" (answer "ok" "sess-2"))
                     (Ret tt))
           (request "continue" "c1") None "sess-1" (Exception "Connection refused"));
    vm_compute; reflexivity.
Defined.

(** C5, as amended: when a stored handle was resolved and the resumed run
    fails with a message classified as an expired session, the agent is run
    once more, without a resume hint, and never again; if that fresh run
    succeeds, the reply is a success that carries the joined text and the
    session handle of the fresh run; if it fails, the reply is its error. *)
Theorem expired_session_falls_back (w : World) (p : gmap string pyval)
    (context : option RequestContext) (h : string) (e : exn) :
  truthy (default (PStr "") (p !! "prompt")) = true ->
  fst (run (get_stored_session_id w (conversation_of p context))) = Ret (Some h) ->
  PyStr.nonempty h = true ->
  run_client w (query_options (Some h)) (default (PStr "") (p !! "prompt")) = Raise e ->
  session_expired (PyStr.lower (str e)) = true ->
  map resume (queries (snd (run (main w (Some p) context)))) = [Some h; None] /\
  fst (run (main w (Some p) context))
  = match run_client w (query_options None) (default (PStr "") (p !! "prompt")) with
    | Ret msgs =>
        Ret (ReplyOk (PyStr.join PyStr.newline (fst (receive msgs [] None)))
                     (conversation_of p context) (snd (receive msgs [] None)))
    | Raise e' => Ret (ReplyError (str e'))
    end.
Proof. apply resume_failure_fallback. Qed.

Lemma expired_session_falls_back_witness :
  let w := world_of (Ret [stored_event [(PStr "__SESSION__:sess-x", "OTHER")]])
             (stale_client "No conversation found for sess-x" (answer "ok" "sess-y"))
             (Ret tt) in
  map resume (queries (snd (run (main w (Some (request "continue" "c1")) None))))
  = [Some "sess-x"; None] /\
  fst (run (main w (Some (request "continue" "c1")) None))
  = Ret (ReplyOk "ok" (PStr "c1") (Some "sess-y")).
Proof.
  intros w.
  apply (expired_session_falls_back w (request "continue" "c1") None "sess-x"
           (Exception "No conversation found for sess-x"));
    vm_compute; reflexivity.
Defined.

(** C5, as stated, fails: the fresh run that follows an expired session
    may fail too, and the reply is then an error, not a success with a new
    handle. *)
Lemma fallback_may_fail :
  ~ (forall (w : World) (p : gmap string pyval) (context : option RequestContext)
            (h : string) (e : exn),
       truthy (default (PStr "") (p !! "prompt")) = true ->
       fst (run (get_stored_session_id w (conversation_of p context))) = Ret (Some h) ->
       PyStr.nonempty h = true ->
       run_client w (query_options (Some h)) (default (PStr "") (p !! "prompt"))
       = Raise e ->
       session_expired (PyStr.lower (str e)) = true ->
       exists response conversation_id h',
         fst (run (main w (Some p) context))
         = Ret (ReplyOk response conversation_id (Some h')) /\ h' <> h).
Proof.
  intros H.
  destruct (H (world_of (Ret first_turn_events)
                 (stale_client "No conversation found for sess-1"
                    (Raise (Exception "boom")))
                 (Ret tt))
              (request "continue" "c1") None "sess-1"
              (Exception "No conversation found for sess-1"))
    as (response & conversation_id & h' & Hreply & _);
    try (vm_compute; reflexivity).
  vm_compute in Hreply. discriminate Hreply.
Qed.



(** The end of a successful turn, from the messages of the run that
    succeeded. *)
Ltac finish_turn H earlier options msgs Hrun :=
  cbn [mret M_ret] in H;
  let full := fresh "full" in
  let sid := fresh "sid" in
  let Hrec := fresh "Hrec" in
  let Hsid := fresh "Hsid" in
  destruct (receive msgs [] None) as [full sid] eqn:Hrec;
  destruct sid as [sid|];
  [ destruct (PyStr.nonempty sid) eqn:Hsid;
    [ rewrite save_session_id_run in H by exact Hsid | ] | ];
  cbn in H; injection H as <- <- <- <-;
  (split;
   [ cbn; rewrite ?Hsid; reflexivity
   | exists earlier, options, msgs; split;
     [ reflexivity
     | split; [ exact Hrun | rewrite Hrec; split; reflexivity ] ] ]).

(** C7, as amended: at the end of a successful turn, if the run of the
    agent gave a non-empty session handle, the trace holds exactly one batch
    given to the store, for the conversation of the turn, made of the
    prompt as USER, the joined response as ASSISTANT and the encoded handle
    as OTHER, in this order; if it gave none, or the empty string, no batch
    was given. The response and the handle of the reply are those of the
    last run of the agent. *)
Theorem persists_one_batch (w : World) (p : gmap string pyval)
    (context : option RequestContext) (response : string)
    (conversation_id : pyval) (session_id : option string) (t : list effect) :
  run (main w (Some p) context)
  = (Ret (ReplyOk response conversation_id session_id), t) ->
  appends t
  = match session_id with
    | Some handle =>
        if PyStr.nonempty handle
        then [ (conversation_of p context,
                [ (default (PStr "") (p !! "prompt"), "USER");
                  (PStr response, "ASSISTANT");
                  (PStr (encode handle), "OTHER") ]) ]
        else []
    | None => []
    end /\
  exists earlier options msgs,
    queries t = (earlier ++ [options])%list /\
    run_client w options (default (PStr "") (p !! "prompt")) = Ret msgs /\
    response = PyStr.join PyStr.newline (fst (receive msgs [] None)) /\
    session_id = snd (receive msgs [] None).
Proof.
  intros H. unfold run, main in H.
  destruct (truthy (PDict p)); cbn [negb] in H; [|discriminate H].
  destruct (truthy (default (PStr "") (p !! "prompt"))); cbn [negb] in H;
    [|discriminate H].
  unfold mbind, M_bind in H. rewrite get_stored_session_id_run in H.
  unfold try_except in H.
  match type of H with context [truthy_opt ?s] => set (stored := s) in * end.
  destruct (truthy_opt stored).
  - rewrite execute_query_run in H.
    destruct (run_client w (query_options stored) _) as [msgs|e] eqn:Hrun.
    + finish_turn H (@nil ClaudeAgentOptions) (query_options stored) msgs Hrun.
    + destruct (session_expired (PyStr.lower (str e))); [|discriminate H].
      rewrite execute_query_run in H.
      destruct (run_client w (query_options None) _) as [msgs|e'] eqn:Hrun';
        [|discriminate H].
      finish_turn H [query_options stored] (query_options None) msgs Hrun'.
  - rewrite execute_query_run in H.
    destruct (run_client w (query_options None) _) as [msgs|e] eqn:Hrun;
      [|discriminate H].
    finish_turn H (@nil ClaudeAgentOptions) (query_options None) msgs Hrun.
Qed.

Lemma persists_one_batch_witness :
  let w := world_of (Ret []) (fun _ => answer "hi there" "sess-1") (Ret tt) in
  exists t,
    run (main w (Some (request "hello" "c1")) None)
    = (Ret (ReplyOk "hi there" (PStr "c1") (Some "sess-1")), t) /\
    appends t
    = [ (PStr "c1",
         [ (PStr "hello", "USER"); (PStr "hi there", "ASSISTANT");
           (PStr "__SESSION__:sess-1", "OTHER") ]) ].
Proof.
  intros w. eexists. split; [vm_compute; reflexivity|].
  refine (proj1 (persists_one_batch w (request "hello" "c1") None "hi there"
                   (PStr "c1") (Some "sess-1") _ _)).
  vm_compute. reflexivity.
Defined.

(** C7, as stated, fails: a run of the agent whose result message holds
    the empty string gives a success reply that carries this handle, and
    no batch is given to the store. *)
Lemma empty_handle_not_persisted :
  ~ (forall (w : World) (p : gmap string pyval) (context : option RequestContext)
            (response : string) (conversation_id : pyval) (handle : string)
            (t : list effect),
       run (main w (Some p) context)
       = (Ret (ReplyOk response conversation_id (Some handle)), t) ->
       appends t
       = [ (conversation_of p context,
            [ (default (PStr "") (p !! "prompt"), "USER");
              (PStr response, "ASSISTANT");
              (PStr (encode handle), "OTHER") ]) ]).
Proof.
  intros H.
  specialize (H (world_of (Ret []) (fun _ => answer "hi there" "") (Ret tt))
                (request "hello" "c1") None "hi there" (PStr "c1") ""
                [ ListEvents "claudeagentsdkdemo_mem-ASCTQAHVFO" ACTOR_ID (PStr "c1") 10;
                  Query (query_options None) (PStr "hello") ]).
  assert (Hrun : run (main (world_of (Ret []) (fun _ => answer "hi there" "") (Ret tt))
                        (Some (request "hello" "c1")) None)
                 = (Ret (ReplyOk "hi there" (PStr "c1") (Some "")),
                    [ ListEvents "claudeagentsdkdemo_mem-ASCTQAHVFO" ACTOR_ID
                        (PStr "c1") 10;
                      Query (query_options None) (PStr "hello") ]))
    by (vm_compute; reflexivity).
  specialize (H Hrun). cbn [appends] in H. discriminate H.
Qed.

Section Persistence.

Variable w : World.
Variable ce : string -> string -> pyval -> list (pyval * string) -> outcome unit.

Lemma save_session_id_any_store (c : pyval) (sid : string) (u : pyval)
    (r : string) (t : list effect) :
  save_session_id (with_create_event w ce) c sid u r t
  = save_session_id w c sid u r t.
Proof. rewrite !save_session_id_trace. reflexivity. Qed.

Lemma bind_ext {A B : Type} (m : M A) (f g : A -> M B) (t : list effect) :
  (forall a t', f a t' = g a t') -> (m ≫= f) t = (m ≫= g) t.
Proof.
  intros H. unfold mbind, M_bind. destruct (m t) as [[a|e] t']; [apply H | reflexivity].
Qed.

Lemma main_any_store (payload : option (gmap string pyval))
    (context : option RequestContext) (t : list effect) :
  main (with_create_event w ce) payload context t = main w payload context t.
Proof.
  unfold main. destruct payload as [p|]; [|reflexivity].
  destruct (truthy (PDict p)); [|reflexivity].
  destruct (truthy (default (PStr "") (p !! "prompt"))); [|reflexivity].
  cbn [negb].
  change (get_stored_session_id (with_create_event w ce))
    with (get_stored_session_id w).
  apply bind_ext. intros stored t1.
  change (execute_query (with_create_event w ce)) with (execute_query w).
  apply bind_ext. intros [err|[full sid]] t2; [reflexivity|].
  destruct sid as [sid|]; [|reflexivity].
  destruct (PyStr.nonempty sid); [|reflexivity].
  unfold mbind, M_bind. rewrite save_session_id_any_store. reflexivity.
Qed.

End Persistence.

(** C9: a request without payload, with an empty payload, or whose prompt
    is missing or empty, is answered by an error, and neither the store
    nor the agent is called. *)
Theorem invalid_request_no_effects (w : World)
    (payload : option (gmap string pyval)) (context : option RequestContext) :
  payload = None
  \/ (exists p, payload = Some p
                /\ (p !! "prompt" = None \/ p !! "prompt" = Some (PStr ""))) ->
  exists error, run (main w payload context) = (Ret (ReplyError error), []).
Proof.
  intros [-> | (p & -> & Hp)]; unfold run, main.
  - eexists. reflexivity.
  - destruct (truthy (PDict p)); cbn [negb]; [|eexists; reflexivity].
    destruct Hp as [-> | ->]; eexists; reflexivity.
Qed.

Lemma invalid_request_no_effects_witness :
  exists error,
    run (main (world_of (Ret first_turn_events) (fun _ => answer "ok" "sess-2") (Ret tt))
              (Some {[ "conversation_id" := PStr "c1" ]}) None)
    = (Ret (ReplyError error), []).
Proof.
  apply invalid_request_no_effects.
  right. exists {[ "conversation_id" := PStr "c1" ]}. split; [reflexivity|].
  left. reflexivity.
Defined.

(** ** The classification of a failed resume *)
Section Classification.

Lemma lower_app (a b : string) :
  PyStr.lower (a ++ b) = PyStr.lower a ++ PyStr.lower b.
Proof. induction a as [|c a IH]; simpl; [reflexivity | now rewrite IH]. Qed.

Lemma lower_split (msg x y : string) :
  PyStr.lower msg = x ++ y ->
  exists a b, msg = a ++ b /\ PyStr.lower a = x /\ PyStr.lower b = y.
Proof.
  revert msg. induction x as [|c x IH]; intros msg H.
  - exists "", msg. auto.
  - destruct msg as [|d msg]; [discriminate|].
    simpl in H. injection H as Hc Hrest.
    destruct (IH _ Hrest) as (a & b & -> & Ha & Hb).
    exists (String d a), b. simpl. rewrite Ha, Hc. auto.
Qed.

Lemma contains_lower (signature msg : string) :
  PyStr.contains signature (PyStr.lower msg) = true <->
  exists a m b, msg = a ++ m ++ b /\ PyStr.lower m = signature.
Proof.
  rewrite contains_occurs. split.
  - intros (x & y & H).
    destruct (lower_split _ _ _ H) as (a & rest & -> & _ & Hrest).
    destruct (lower_split _ _ _ Hrest) as (m & b & -> & Hm & _).
    exists a, m, b. auto.
  - intros (a & m & b & -> & <-).
    exists (PyStr.lower a), (PyStr.lower b). now rewrite !lower_app.
Qed.

Lemma all_ascii (c : ascii) : In c (map ascii_of_nat (seq 0 256)).
Proof.
  rewrite <- (ascii_nat_embedding c). apply in_map, in_seq.
  pose proof (nat_ascii_bounded c). lia.
Qed.

(** A character of the ASCII range that is not a capital is the lowercase
    form of itself and of its capital, and of no other character. *)
Lemma lower_char_plain (c d : ascii) :
  negb (PyStr.has_lower d) && (PyStr.code d <? 128)%N = true ->
  Ascii.eqb (PyStr.lower_char c) d = Ascii.eqb c d || Ascii.eqb c (capital d).
Proof.
  assert (Hall :
    forallb (fun c => forallb (fun d =>
      implb (negb (PyStr.has_lower d) && (PyStr.code d <? 128)%N)
            (Bool.eqb (Ascii.eqb (PyStr.lower_char c) d)
                      (Ascii.eqb c d || Ascii.eqb c (capital d))))
      (map ascii_of_nat (seq 0 256))) (map ascii_of_nat (seq 0 256)) = true)
    by (vm_compute; reflexivity).
  intros Hd. rewrite forallb_forall in Hall.
  specialize (Hall c (all_ascii c)). rewrite forallb_forall in Hall.
  specialize (Hall d (all_ascii d)). rewrite Hd in Hall.
  apply Bool.eqb_prop. exact Hall.
Qed.

Lemma case_variant_lower (m signature : string) :
  forallb (fun d => negb (PyStr.has_lower d) && (PyStr.code d <? 128)%N)
          (list_ascii_of_string signature) = true ->
  PyStr.lower m = signature <-> case_variant m signature = true.
Proof.
  revert m. induction signature as [|d signature IH]; intros m Hplain.
  - destruct m; simpl; split; intros H; try reflexivity; discriminate.
  - simpl in Hplain. apply andb_prop in Hplain as [Hd Hrest].
    destruct m as [|c m]; [simpl; split; discriminate|].
    simpl. rewrite <- (lower_char_plain c d Hd). split.
    + intros H. injection H as Hc Hm.
      rewrite Hc, Ascii.eqb_refl. apply IH; assumption.
    + intros H. apply andb_prop in H as [Hc Hm].
      apply Ascii.eqb_eq in Hc. apply (IH _ Hrest) in Hm.
      now rewrite Hc, Hm.
Qed.

(** The test of the source holds exactly of the messages that carry a
    signature in some case of its letters. *)
Lemma session_expired_signature (msg : string) :
  session_expired (PyStr.lower msg) = true <-> has_signature msg.
Proof.
  unfold session_expired, has_signature.
  rewrite orb_true_iff, !contains_lower. split.
  - intros [(a & m & b & Hmsg & Hm) | (a & m & b & Hmsg & Hm)];
      exists a, m, b; (split; [exact Hmsg|]);
      [left | right]; apply case_variant_lower; auto.
  - intros (a & m & b & Hmsg & [Hm | Hm]); [left | right];
      exists a, m, b; (split; [exact Hmsg|]);
      apply case_variant_lower; auto.
Qed.

End Classification.

(** C10: the failure of a resumed run is classified on the lowercased text
    of the exception: the test holds exactly when the text carries
    ["no conversation found"] or ["exit code 1"] in some case of the
    letters; then one fresh run follows, and with any other text the turn
    ends with the error. *)
Theorem expired_signature_any_case (w : World) (p : gmap string pyval)
    (context : option RequestContext) (h : string) (e : exn) :
  truthy (default (PStr "") (p !! "prompt")) = true ->
  fst (run (get_stored_session_id w (conversation_of p context))) = Ret (Some h) ->
  PyStr.nonempty h = true ->
  run_client w (query_options (Some h)) (default (PStr "") (p !! "prompt")) = Raise e ->
  (session_expired (PyStr.lower (str e)) = true <-> has_signature (str e)) /\
  (has_signature (str e) ->
   map resume (queries (snd (run (main w (Some p) context)))) = [Some h; None]) /\
  (~ has_signature (str e) ->
   run (main w (Some p) context)
   = (Ret (ReplyError (str e)),
      [ ListEvents (MEMORY_ID w) ACTOR_ID (conversation_of p context) 10;
        Query (query_options (Some h)) (default (PStr "") (p !! "prompt")) ])).
Proof.
  intros Hprompt Hstored Hh Hfail.
  split; [apply session_expired_signature|]. split.
  - intros Hsig. apply session_expired_signature in Hsig.
    exact (proj1 (resume_failure_fallback w p context h e
                    Hprompt Hstored Hh Hfail Hsig)).
  - intros Hsig. apply resume_failure_fatal; try assumption.
    destruct (session_expired (PyStr.lower (str e))) eqn:E; [|reflexivity].
    exfalso. apply Hsig, session_expired_signature, E.
Qed.

Lemma expired_signature_any_case_witness :
  let w := world_of (Ret first_turn_events)
             (stale_client "Command failed with EXIT CODE 1" (answer "ok" "sess-2"))
             (Ret tt) in
  has_signature "Command failed with EXIT CODE 1" /\
  map resume (queries (snd (run (main w (Some (request "continue" "c1")) None))))
  = [Some "sess-1"; None].
Proof.
  intros w.
  destruct (expired_signature_any_case w (request "continue" "c1") None "sess-1"
              (Exception "Command failed with EXIT CODE 1"))
    as (Hiff & Hyes & _); try (vm_compute; reflexivity).
  assert (Hsig : has_signature "Command failed with EXIT CODE 1").
  { exists "Command failed with ", "EXIT CODE 1", "". split; [reflexivity|].
    right. reflexivity. }
  split; [exact Hsig | exact (Hyes Hsig)].
Defined.

(** ** The whole turn *)

(** The end of a turn whose run of the agent gave [msgs]. *)
Ltac close_turn msgs :=
  cbn [mret M_ret];
  let full := fresh "full" in
  let sid := fresh "sid" in
  let Hsid := fresh "Hsid" in
  destruct (receive msgs [] None) as [full sid]; cbn [fst snd];
  destruct sid as [sid|]; [|reflexivity];
  destruct (PyStr.nonempty sid) eqn:Hsid; [|reflexivity];
  rewrite save_session_id_run by exact Hsid; reflexivity.

Section Turn.

(** The run of [main] on a request with a prompt, case by case on what the
    store and the agent answer. *)
Lemma main_run (w : World) (p : gmap string pyval) (context : option RequestContext) :
  truthy (default (PStr "") (p !! "prompt")) = true ->
  run (main w (Some p) context) =
  let prompt := default (PStr "") (p !! "prompt") in
  let conv := conversation_of p context in
  let stored :=
    match list_events w (MEMORY_ID w) ACTOR_ID conv 10 with
    | Ret events =>
        match scan_events events with
        | Ret r => r
        | Raise _ => None
        end
    | Raise _ => None
    end in
  let finish (runs : list ClaudeAgentOptions) (msgs : list Message) :=
    let response := PyStr.join PyStr.newline (fst (receive msgs [] None)) in
    (Ret (ReplyOk response conv (snd (receive msgs [] None))),
     turn_trace w conv prompt runs
       match snd (receive msgs [] None) with
       | Some sid =>
           if PyStr.nonempty sid then [(conv, saved_batch prompt response sid)] else []
       | None => []
       end) in
  let failed (runs : list ClaudeAgentOptions) (e : exn) :=
    (Ret (ReplyError (str e)), turn_trace w conv prompt runs []) in
  if truthy_opt stored then
    match run_client w (query_options stored) prompt with
    | Ret msgs => finish [query_options stored] msgs
    | Raise e =>
        if session_expired (PyStr.lower (str e)) then
          match run_client w (query_options None) prompt with
          | Ret msgs => finish [query_options stored; query_options None] msgs
          | Raise e' => failed [query_options stored; query_options None] e'
          end
        else failed [query_options stored] e
    end
  else
    match run_client w (query_options None) prompt with
    | Ret msgs => finish [query_options None] msgs
    | Raise e => failed [query_options None] e
    end.
Proof.
  intros Hprompt. cbv zeta. enter_main Hprompt.
  rewrite get_stored_session_id_run.
  match goal with |- context [truthy_opt ?s] => generalize s end.
  intros stored. unfold try_except.
  destruct (truthy_opt stored).
  - rewrite execute_query_run.
    destruct (run_client w (query_options stored) _) as [msgs|e].
    + close_turn msgs.
    + destruct (session_expired (PyStr.lower (str e))); [|reflexivity].
      rewrite execute_query_run.
      destruct (run_client w (query_options None) _) as [msgs|e']; [|reflexivity].
      close_turn msgs.
  - rewrite execute_query_run.
    destruct (run_client w (query_options None) _) as [msgs|e]; [|reflexivity].
    close_turn msgs.
Qed.

Lemma queries_turn_trace (w : World) (c prompt : pyval)
    (runs : list ClaudeAgentOptions) (batches : list (pyval * list (pyval * string))) :
  queries (turn_trace w c prompt runs batches) = runs.
Proof.
  unfold turn_trace. cbn [queries].
  induction runs as [|o runs IH]; cbn [map app queries].
  - induction batches as [|b batches IH]; [reflexivity | exact IH].
  - now rewrite IH.
Qed.

Lemma appends_turn_trace (w : World) (c prompt : pyval)
    (runs : list ClaudeAgentOptions) (batches : list (pyval * list (pyval * string))) :
  appends (turn_trace w c prompt runs batches) = batches.
Proof.
  unfold turn_trace. cbn [appends].
  induction runs as [|o runs IH]; cbn [map app appends]; [|exact IH].
  induction batches as [|[k b] batches IH]; [reflexivity|].
  cbn [map appends fst snd]. now rewrite IH.
Qed.

Lemma nonempty_dict_truthy (p : gmap string pyval) : p <> ∅ -> truthy (PDict p) = true.
Proof.
  intros Hp. cbn. destruct (map_to_list p) eqn:E; [|reflexivity].
  exfalso. apply Hp. now apply map_to_list_empty_iff.
Qed.

(** A request without a prompt ends before any call. *)
Lemma main_invalid (w : World) (payload : option (gmap string pyval))
    (context : option RequestContext) :
  match payload with
  | Some p => truthy (default (PStr "") (p !! "prompt")) = false
  | None => True
  end ->
  exists error, run (main w payload context) = (Ret (ReplyError error), []).
Proof.
  destruct payload as [p|]; intros H; unfold run, main; [|eexists; reflexivity].
  destruct (truthy (PDict p)); cbn [negb]; [|eexists; reflexivity].
  rewrite H. eexists. reflexivity.
Qed.

End Turn.

(** ** Configuration *)

(** X1: whatever the environment holds, the memory id is a non-empty
    string, namely the value of BEDROCK_AGENTCORE_MEMORY_ID if it is set and
    not empty, else that of MEMORY_ID if it is set and not empty, else the
    built-in default; hence the resolver always makes its one listing call
    and returns. The region, by contrast, is empty when AWS_REGION is set to
    the empty string, and the default only when it is not set. *)
Theorem memory_id_never_empty (w : World) :
  PyStr.nonempty (MEMORY_ID w) = true /\
  MEMORY_ID w
  = (if env_set w "BEDROCK_AGENTCORE_MEMORY_ID"
     then default "" (environ w !! "BEDROCK_AGENTCORE_MEMORY_ID")
     else if env_set w "MEMORY_ID"
          then default "" (environ w !! "MEMORY_ID")
          else "claudeagentsdkdemo_mem-ASCTQAHVFO") /\
  (forall c t, exists r,
     get_stored_session_id w c t
     = (Ret r, (t ++ [ListEvents (MEMORY_ID w) ACTOR_ID c 10])%list)) /\
  (PyStr.nonempty (region_name w) = false <-> environ w !! "AWS_REGION" = Some "").
Proof.
  split; [apply MEMORY_ID_nonempty|]. split; [|split].
  - unfold MEMORY_ID, env_or, env_set.
    destruct (environ w !! "BEDROCK_AGENTCORE_MEMORY_ID") as [v|]; cbn [default].
    + destruct (PyStr.nonempty v); [reflexivity|].
      destruct (environ w !! "MEMORY_ID") as [v'|]; cbn [default]; [|reflexivity].
      destruct (PyStr.nonempty v'); reflexivity.
    + destruct (environ w !! "MEMORY_ID") as [v'|]; cbn [default]; [|reflexivity].
      destruct (PyStr.nonempty v'); reflexivity.
  - intros c t. rewrite get_stored_session_id_run. eauto.
  - unfold region_name. destruct (environ w !! "AWS_REGION") as [v|]; cbn [default].
    + destruct v; cbn; split; intros H; try reflexivity; discriminate.
    + cbn. split; discriminate.
Qed.

(** X2: the conversation id of a turn is never empty: it is the value of
    the payload when that is truthy, else the session id of the context
    when there is a non-empty one, else ["default"]. *)
Theorem conversation_id_always_set (p : gmap string pyval)
    (context : option RequestContext) :
  truthy (conversation_of p context) = true /\
  (forall v, p !! "conversation_id" = Some v -> truthy v = true ->
             conversation_of p context = v) /\
  (truthy (default PNone (p !! "conversation_id")) = false ->
   (forall s, context = Some {| ctx_session_id := Some s |} ->
              PyStr.nonempty s = true -> conversation_of p context = PStr s) /\
   ((context = None \/ context = Some {| ctx_session_id := None |}
     \/ context = Some {| ctx_session_id := Some "" |}) ->
    conversation_of p context = PStr "default")).
Proof.
  unfold conversation_of. split; [|split].
  - destruct (truthy (default PNone (p !! "conversation_id"))) eqn:E; [exact E|].
    destruct context as [[[s|]]|]; cbn; try reflexivity.
    destruct (PyStr.nonempty s) eqn:Hs; cbn; [exact Hs | reflexivity].
  - intros v -> Hv. cbn [from_option id]. now rewrite Hv.
  - intros ->. split.
    + intros s -> Hs. cbn. now rewrite Hs.
    + intros [-> | [-> | ->]]; reflexivity.
Qed.

(** ** Requests *)

(** X3: a missing or empty payload is answered ["No payload provided"],
    and a payload whose prompt is missing or falsy, be it the empty string,
    None, zero, False or an empty list or dict, is answered
    ["No prompt provided"]; in both cases no call is made. *)
Theorem invalid_request_messages (w : World) (context : option RequestContext) :
  run (main w None context) = (Ret (ReplyError "No payload provided"), []) /\
  run (main w (Some ∅) context) = (Ret (ReplyError "No payload provided"), []) /\
  (forall p : gmap string pyval,
     p <> ∅ -> truthy (default (PStr "") (p !! "prompt")) = false ->
     run (main w (Some p) context) = (Ret (ReplyError "No prompt provided"), [])) /\
  Forall (fun v => truthy v = false)
         [PStr ""; PNone; PInt 0; PBool false; PList []; PDict ∅].
Proof.
  split; [reflexivity|]. split; [reflexivity|]. split.
  - intros p Hp Hprompt. unfold run, main.
    rewrite (nonempty_dict_truthy _ Hp), Hprompt. reflexivity.
  - repeat constructor.
Qed.

(** X4: no exception that [list_events], [create_event] or the run of the
    agent raises escapes [main]: it returns a reply. An error reply is one
    of the two messages about the request, or the text of an exception
    raised by a run of the agent on the prompt; what the store raises is
    never reported. *)
Theorem main_never_raises (w : World) (payload : option (gmap string pyval))
    (context : option RequestContext) :
  exists r t,
    run (main w payload context) = (Ret r, t) /\
    match r with
    | ReplyError error =>
        error = "No payload provided" \/ error = "No prompt provided"
        \/ exists p options e,
             payload = Some p
             /\ run_client w options (default (PStr "") (p !! "prompt")) = Raise e
             /\ error = str e
    | ReplyOk _ _ _ => True
    end.
Proof.
  destruct payload as [p|]; [|eexists _, _; split; [reflexivity | left; reflexivity]].
  destruct (truthy (default (PStr "") (p !! "prompt"))) eqn:Hprompt.
  - rewrite (main_run w p context Hprompt). cbv zeta.
    repeat match goal with
           | |- context [if truthy_opt ?b then _ else _] => destruct (truthy_opt b)
           | |- context [if session_expired ?b then _ else _] =>
               destruct (session_expired b)
           | |- context [match run_client ?a ?b ?c with _ => _ end] =>
               let E := fresh "Hrun" in
               destruct (run_client a b c) as [?msgs|?e] eqn:E
           end;
      eexists _, _; (split; [reflexivity|]); try exact I;
      right; right; eexists p, _, _; (split; [reflexivity|]);
      (split; [eassumption | reflexivity]).
  - unfold run, main. destruct (truthy (PDict p)); cbn [negb].
    + rewrite Hprompt. eexists _, _. split; [reflexivity|]. right; left; reflexivity.
    + eexists _, _. split; [reflexivity|]. left; reflexivity.
Qed.

(** X5: the calls of a turn with a prompt are, in this order, one listing
    of the store, one or two runs of the agent on the prompt, and at most
    one batch given to the store, for the conversation that was listed. *)
Theorem turn_trace_shape (w : World) (p : gmap string pyval)
    (context : option RequestContext) :
  truthy (default (PStr "") (p !! "prompt")) = true ->
  exists runs batches,
    snd (run (main w (Some p) context))
    = turn_trace w (conversation_of p context) (default (PStr "") (p !! "prompt"))
        runs batches /\
    1 <= length runs <= 2 /\
    length batches <= 1 /\
    Forall (fun b => fst b = conversation_of p context) batches.
Proof.
  intros Hprompt. rewrite (main_run w p context Hprompt). cbv zeta.
  repeat match goal with
         | |- context [if truthy_opt ?b then _ else _] => destruct (truthy_opt b)
         | |- context [if session_expired ?b then _ else _] =>
             destruct (session_expired b)
         | |- context [match run_client ?a ?b ?c with _ => _ end] =>
             destruct (run_client a b c) as [?msgs|?e]
         end; cbn [snd];
    eexists _, _; (split; [reflexivity|]); cbn [length];
    repeat match goal with
           | |- context [match snd (receive ?m [] None) with _ => _ end] =>
               destruct (snd (receive m [] None)) as [?sid|]
           | |- context [if PyStr.nonempty ?s then _ else _] =>
               destruct (PyStr.nonempty s)
           end; cbn [length]; (split; [lia|]); (split; [lia|]);
    repeat constructor.
Qed.

Lemma turn_trace_shape_witness :
  let w := world_of (Ret first_turn_events)
             (stale_client "No conversation found" (answer "ok" "sess-2")) (Ret tt) in
  exists runs batches,
    snd (run (main w (Some (request "continue" "c1")) None))
    = turn_trace w (PStr "c1") (PStr "continue") runs batches /\
    1 <= length runs <= 2 /\
    length batches <= 1 /\
    Forall (fun b => fst b = PStr "c1") batches.
Proof.
  intros w. apply (turn_trace_shape w (request "continue" "c1") None). reflexivity.
Defined.

(** X6: a turn that ends in an error reply has given no batch to the
    store. *)
Theorem failed_turn_writes_nothing (w : World) (payload : option (gmap string pyval))
    (context : option RequestContext) (error : string) (t : list effect) :
  run (main w payload context) = (Ret (ReplyError error), t) -> appends t = [].
Proof.
  destruct payload as [p|].
  - destruct (truthy (default (PStr "") (p !! "prompt"))) eqn:Hprompt.
    + rewrite (main_run w p context Hprompt). cbv zeta.
      repeat match goal with
             | |- context [if ?b then _ else _] => destruct b
             | |- context [match run_client ?a ?b ?c with _ => _ end] =>
                 destruct (run_client a b c)
             end; intros H; try discriminate H;
        injection H as _ <-; apply appends_turn_trace.
    + destruct (main_invalid w (Some p) context Hprompt) as [err ->].
      intros H. injection H as _ <-. reflexivity.
  - destruct (main_invalid w None context I) as [err ->].
    intros H. injection H as _ <-. reflexivity.
Qed.

Lemma failed_turn_writes_nothing_witness :
  appends [ ListEvents "claudeagentsdkdemo_mem-ASCTQAHVFO" ACTOR_ID (PStr "c1") 10;
            Query (query_options (Some "sess-1")) (PStr "continue") ] = [].
Proof.
  apply (failed_turn_writes_nothing
           (world_of (Ret first_turn_events)
                     (stale_client "Connection refused" (answer "ok" "sess-2"))
                     (Ret tt))
           (Some (request "continue" "c1")) None "Connection refused").
  vm_compute. reflexivity.
Defined.

(** ** More on the resolver *)
Section ResolverEdges.

Lemma stored_of_run (w : World) (c : pyval) (o : option string) :
  fst (run (get_stored_session_id w c)) = Ret o ->
  match list_events w (MEMORY_ID w) ACTOR_ID c 10 with
  | Ret events =>
      match scan_events events with
      | Ret r => r
      | Raise _ => None
      end
  | Raise _ => None
  end = o.
Proof.
  unfold run. rewrite get_stored_session_id_run. cbn [fst].
  intros H. injection H as H. exact H.
Qed.

Lemma space_not_underscore (c : ascii) :
  PyStr.isspace c = true -> Ascii.eqb "_" c = false.
Proof.
  intros H. destruct (Ascii.eqb "_" c) eqn:E; [|reflexivity].
  apply Ascii.eqb_eq in E. subst c. discriminate H.
Qed.

Lemma blank_no_marker (ws : string) :
  blank ws = true -> PyStr.contains MARKER_PREFIX ws = false.
Proof.
  induction ws as [|c ws IH]; [reflexivity|].
  cbn [blank]. intros H. apply andb_prop in H as [Hc Hws].
  cbn [PyStr.contains]. rewrite (IH Hws), orb_false_r.
  unfold MARKER_PREFIX. cbn [PyStr.startswith].
  now rewrite (space_not_underscore c Hc).
Qed.

Lemma blank_lstrip (ws : string) : blank ws = true -> PyStr.lstrip ws = "".
Proof.
  induction ws as [|c ws IH]; [reflexivity|].
  cbn [blank PyStr.lstrip]. intros H. apply andb_prop in H as [-> Hws]. exact (IH Hws).
Qed.

Lemma decode_blank (ws : string) : blank ws = true -> decode (encode ws) = Some "".
Proof.
  intros H. rewrite decode_encode, (replace_from_absent _ _ _ (blank_no_marker _ H)).
  unfold PyStr.strip. now rewrite (blank_lstrip _ H).
Qed.

Lemma decode_encode_id (h : string) :
  outer_space h = false -> PyStr.contains MARKER_PREFIX h = false ->
  decode (encode h) = Some h.
Proof.
  intros Hsp Hocc. rewrite decode_encode.
  now rewrite (replace_from_absent _ _ _ Hocc), (strip_id _ Hsp).
Qed.

Lemma lstrip_first (s : string) :
  match PyStr.lstrip s with
  | EmptyString => false
  | String c _ => PyStr.isspace c
  end = false.
Proof.
  induction s as [|c s IH]; [reflexivity|].
  cbn [PyStr.lstrip]. destruct (PyStr.isspace c) eqn:E; [exact IH | exact E].
Qed.

Lemma rstrip_last (s : string) :
  match last_char (PyStr.rstrip s) with
  | Some c => PyStr.isspace c
  | None => false
  end = false.
Proof.
  induction s as [|c s IH]; [reflexivity|].
  cbn [PyStr.rstrip]. destruct (PyStr.rstrip s) as [|d r].
  - destruct (PyStr.isspace c) eqn:E; [reflexivity | cbn; exact E].
  - exact IH.
Qed.

Lemma rstrip_first (c : ascii) (s : string) :
  PyStr.isspace c = false -> exists r, PyStr.rstrip (String c s) = String c r.
Proof.
  intros H. cbn [PyStr.rstrip]. destruct (PyStr.rstrip s) as [|d r].
  - rewrite H. eauto.
  - eauto.
Qed.

Lemma strip_trimmed (s : string) : outer_space (PyStr.strip s) = false.
Proof.
  unfold outer_space, PyStr.strip. rewrite rstrip_last, orb_false_r.
  pose proof (lstrip_first s) as H. destruct (PyStr.lstrip s) as [|c r]; [reflexivity|].
  destruct (rstrip_first c r H) as [r' ->]. exact H.
Qed.

Lemma scan_msg_found (m : pyval) (h : string) :
  scan_msg m = Ret (Some h) -> exists s, decode s = Some h.
Proof.
  destruct m as [| | | | |d]; try discriminate.
  unfold scan_msg, py_get. cbn.
  destruct (default (PDict ∅) (d !! "conversational")) as [| | | | |k];
    try discriminate. cbn.
  destruct (default (PDict ∅) (k !! "content")) as [| | | | |k'];
    try discriminate. cbn.
  destruct (default (PStr "") (k' !! "text")); try discriminate.
  intros H. injection H as H. eauto.
Qed.

Lemma scan_payload_found (msgs : list pyval) (h : string) :
  scan_payload msgs = Ret (Some h) -> exists s, decode s = Some h.
Proof.
  induction msgs as [|m msgs IH]; [discriminate|].
  cbn [scan_payload]. destruct (scan_msg m) as [[h'|]|e] eqn:E; cbn.
  - intros H. injection H as ->. exact (scan_msg_found _ _ E).
  - exact IH.
  - discriminate.
Qed.

Lemma scan_payload_raise (pre post : list pyval) (m : pyval) (e : exn) :
  Forall (fun x => scan_msg x = Ret None) pre ->
  scan_msg m = Raise e ->
  scan_payload (pre ++ m :: post)%list = Raise e.
Proof.
  intros Hpre Hm. induction Hpre as [|x pre Hx _ IH]; cbn [scan_payload app].
  - rewrite Hm. reflexivity.
  - rewrite Hx. exact IH.
Qed.

Lemma scan_saved_batch (user_input : pyval) (response sid : string)
    (older : list pyval) :
  scan_events (stored_event (saved_batch user_input response sid) :: older)
  = Ret match content_decode user_input with
        | Some h => Some h
        | None =>
            match decode response with
            | Some h => Some h
            | None => decode (encode sid)
            end
        end.
Proof.
  unfold stored_event, saved_batch. cbn [scan_events].
  rewrite lookup_singleton_eq. cbn [from_option id map fst snd scan_payload].
  rewrite !scan_conversational_msg.
  fold (content_decode user_input).
  destruct (content_decode user_input); cbn; [reflexivity|].
  destruct (decode response); reflexivity.
Qed.

End ResolverEdges.

(** X7: every handle the resolver returns is trimmed: it neither begins
    nor ends with a whitespace character. *)
Theorem resolved_handle_trimmed (w : World) (c : pyval) (h : string) :
  fst (run (get_stored_session_id w c)) = Ret (Some h) -> outer_space h = false.
Proof.
  intros H. apply stored_of_run in H.
  destruct (list_events w (MEMORY_ID w) ACTOR_ID c 10) as [events|e]; [|discriminate].
  rewrite scan_events_messages in H.
  destruct (scan_payload (messages events)) as [r|e] eqn:E; [|discriminate].
  subst r. destruct (scan_payload_found _ _ E) as [s Hs].
  rewrite decode_prefix in Hs.
  destruct (PyStr.startswith s MARKER_PREFIX); [|discriminate].
  injection Hs as <-. apply strip_trimmed.
Qed.

Lemma resolved_handle_trimmed_witness :
  fst (run (get_stored_session_id
              (world_of (Ret [stored_event [(PStr "__SESSION__:  padded  ", "OTHER")]])
                        (fun _ => answer "ok" "sess-2") (Ret tt))
              (PStr "c1")))
  = Ret (Some "padded") /\
  outer_space "padded" = false.
Proof.
  split; [vm_compute; reflexivity|].
  apply (resolved_handle_trimmed
           (world_of (Ret [stored_event [(PStr "__SESSION__:  padded  ", "OTHER")]])
                     (fun _ => answer "ok" "sess-2") (Ret tt))
           (PStr "c1") "padded").
  vm_compute. reflexivity.
Defined.

(** X8: the batch that [save_session_id] wrote is read back: when the
    store lists it first, and neither the prompt nor the response begins
    with the marker prefix, and the handle is trimmed and free of the
    prefix, the resolver returns that handle, whatever the older events
    are. *)
Theorem saved_batch_read_back (w : World) (c user_input : pyval)
    (response sid : string) (older : list pyval) :
  list_events w (MEMORY_ID w) ACTOR_ID c 10
  = Ret (stored_event (saved_batch user_input response sid) :: older) ->
  content_decode user_input = None ->
  decode response = None ->
  outer_space sid = false ->
  PyStr.contains MARKER_PREFIX sid = false ->
  run (get_stored_session_id w c)
  = (Ret (Some sid), [ListEvents (MEMORY_ID w) ACTOR_ID c 10]).
Proof.
  intros Hlist Hu Hr Hsp Hocc. unfold run.
  rewrite get_stored_session_id_run, Hlist, scan_saved_batch, Hu, Hr.
  rewrite (decode_encode_id _ Hsp Hocc). reflexivity.
Qed.

Lemma saved_batch_read_back_witness :
  let w := world_of (Ret (stored_event (saved_batch (PStr "continue") "ok" "sess-2")
                          :: first_turn_events))
             (fun _ => answer "fine" "sess-3") (Ret tt) in
  run (get_stored_session_id w (PStr "c1"))
  = (Ret (Some "sess-2"), [ListEvents (MEMORY_ID w) ACTOR_ID (PStr "c1") 10]).
Proof.
  intros w.
  apply (saved_batch_read_back w (PStr "c1") (PStr "continue") "ok" "sess-2"
           first_turn_events); reflexivity.
Defined.

(** X9: a message whose ["conversational"] entry is not a dict makes the
    scan raise, and the resolver then answers none: every marker listed
    after such a message is lost, whatever it holds. *)
Theorem malformed_message_hides_markers (w : World) (c : pyval)
    (events pre post : list pyval) (d : gmap string pyval) (v : pyval) :
  list_events w (MEMORY_ID w) ACTOR_ID c 10 = Ret events ->
  messages events = (pre ++ PDict d :: post)%list ->
  Forall (fun m => scan_msg m = Ret None) pre ->
  d !! "conversational" = Some v ->
  (forall k, v <> PDict k) ->
  run (get_stored_session_id w c)
  = (Ret None, [ListEvents (MEMORY_ID w) ACTOR_ID c 10]).
Proof.
  intros Hlist Hmsgs Hpre Hd Hv. unfold run.
  rewrite get_stored_session_id_run, Hlist, scan_events_messages, Hmsgs.
  rewrite (scan_payload_raise pre post (PDict d) (AttributeError v "get") Hpre);
    [reflexivity|].
  unfold scan_msg, py_get. rewrite Hd. cbn.
  destruct v; try reflexivity. exfalso. exact (Hv _ eq_refl).
Qed.

Lemma malformed_message_hides_markers_witness :
  let w := world_of (Ret (PDict {[ "payload" :=
                                    PList [PDict {[ "conversational" := PNone ]}] ]}
                          :: first_turn_events))
             (fun _ => answer "ok" "sess-2") (Ret tt) in
  run (get_stored_session_id w (PStr "c1"))
  = (Ret None, [ListEvents (MEMORY_ID w) ACTOR_ID (PStr "c1") 10]).
Proof.
  intros w.
  apply (malformed_message_hides_markers w (PStr "c1")
           (PDict {[ "payload" := PList [PDict {[ "conversational" := PNone ]}] ]}
            :: first_turn_events)
           [] (messages first_turn_events) {[ "conversational" := PNone ]} PNone).
  - reflexivity.
  - vm_compute. reflexivity.
  - constructor.
  - reflexivity.
  - discriminate.
Defined.

(** ** More on the turn *)
Section TurnEdges.

Lemma receive_acc (msgs : list Message) (responses : list string)
    (sid : option string) :
  receive msgs responses sid
  = ((responses ++ flat_map message_texts msgs)%list,
     match last_result msgs with
     | Some id => Some id
     | None => sid
     end).
Proof.
  revert responses sid. induction msgs as [|m msgs IH]; intros responses sid.
  - cbn. now rewrite app_nil_r.
  - destruct m as [content|id|]; cbn [receive flat_map message_texts last_result];
      rewrite IH.
    + rewrite <- app_assoc. destruct (last_result msgs); reflexivity.
    + destruct (last_result msgs); reflexivity.
    + destruct (last_result msgs); reflexivity.
Qed.

Lemma query_options_sound (r : option string) :
  system_prompt (query_options r) = SYSTEM_PROMPT /\
  max_turns (query_options r) = 10%Z /\
  resume (query_options r) <> Some "".
Proof.
  split; [reflexivity|]. split; [reflexivity|].
  destruct r as [[|c r]|]; cbn; discriminate.
Qed.

Lemma has_signature_context (a msg b : string) :
  has_signature msg -> has_signature (a ++ msg ++ b).
Proof.
  intros (a' & m & b' & -> & Hm).
  exists (a ++ a'), m, (b' ++ b). split; [|exact Hm].
  now rewrite !append_assoc.
Qed.

End TurnEdges.

(** X10: one run of the agent gives the texts of all the text blocks of
    the assistant messages, in the order received, other blocks and other
    messages left out, and the session id of the last result message, none
    if no result message came; if the run raises, so does
    [execute_query], and the texts received so far are lost. *)
Theorem execute_query_collects (w : World) (prompt : pyval) (r : option string) :
  run (execute_query w prompt r)
  = (match run_client w (query_options r) prompt with
     | Ret msgs => Ret (flat_map message_texts msgs, last_result msgs)
     | Raise e => Raise e
     end,
     [Query (query_options r) prompt]).
Proof.
  unfold run. rewrite execute_query_run.
  destruct (run_client w (query_options r) prompt) as [msgs|e]; [|reflexivity].
  rewrite receive_acc. cbn [app]. destruct (last_result msgs); reflexivity.
Qed.

(** X11: [save_session_id] returns normally whatever the store answers; it
    gives the store one batch, the prompt, the response and the marker in
    this order, when the session id is not empty, and makes no call when it
    is empty. *)
Theorem save_session_id_never_raises (w : World) (c : pyval) (sid : string)
    (user_input : pyval) (response : string) (t : list effect) :
  save_session_id w c sid user_input response t
  = (Ret tt,
     if PyStr.nonempty sid
     then (t ++ [CreateEvent (MEMORY_ID w) ACTOR_ID c
                   (saved_batch user_input response sid)])%list
     else t).
Proof. apply save_session_id_trace. Qed.

(** X12: a resume that succeeds is the only run of the turn: no fresh run
    follows, and the reply carries the text and the session id of the
    resumed run. *)
Theorem resume_success_single_run (w : World) (p : gmap string pyval)
    (context : option RequestContext) (h : string) (msgs : list Message) :
  truthy (default (PStr "") (p !! "prompt")) = true ->
  fst (run (get_stored_session_id w (conversation_of p context))) = Ret (Some h) ->
  PyStr.nonempty h = true ->
  run_client w (query_options (Some h)) (default (PStr "") (p !! "prompt")) = Ret msgs ->
  map resume (queries (snd (run (main w (Some p) context)))) = [Some h] /\
  fst (run (main w (Some p) context))
  = Ret (ReplyOk (PyStr.join PyStr.newline (flat_map message_texts msgs))
                 (conversation_of p context) (last_result msgs)).
Proof.
  intros Hprompt Hstored Hh Hrun.
  rewrite (main_run w p context Hprompt). cbv zeta.
  rewrite (stored_of_run _ _ _ Hstored). cbn [truthy_opt]. rewrite Hh, Hrun.
  cbn [fst snd]. rewrite queries_turn_trace, receive_acc. cbn [fst snd app map].
  split.
  - cbn. now rewrite Hh.
  - destruct (last_result msgs); reflexivity.
Qed.

Lemma resume_success_single_run_witness :
  let w := world_of (Ret first_turn_events) (fun _ => answer "ok" "sess-2") (Ret tt) in
  map resume (queries (snd (run (main w (Some (request "continue" "c1")) None))))
  = [Some "sess-1"] /\
  fst (run (main w (Some (request "continue" "c1")) None))
  = Ret (ReplyOk "ok" (PStr "c1") (Some "sess-2")).
Proof.
  intros w.
  apply (resume_success_single_run w (request "continue" "c1") None "sess-1"
           [AssistantMessage [TextBlock "ok"]; ResultMessage "sess-2"]);
    vm_compute; reflexivity.
Defined.

(** X13: when no handle was resolved, or an empty one, a fresh run that
    fails ends the turn: the reply is its error and the agent is not run
    again. *)
Theorem fresh_failure_not_retried (w : World) (p : gmap string pyval)
    (context : option RequestContext) (o : option string) (e : exn) :
  truthy (default (PStr "") (p !! "prompt")) = true ->
  fst (run (get_stored_session_id w (conversation_of p context))) = Ret o ->
  truthy_opt o = false ->
  run_client w (query_options None) (default (PStr "") (p !! "prompt")) = Raise e ->
  run (main w (Some p) context)
  = (Ret (ReplyError (str e)),
     [ ListEvents (MEMORY_ID w) ACTOR_ID (conversation_of p context) 10;
       Query (query_options None) (default (PStr "") (p !! "prompt")) ]).
Proof.
  intros Hprompt Hstored Ho Hrun.
  rewrite (main_run w p context Hprompt). cbv zeta.
  rewrite (stored_of_run _ _ _ Hstored), Ho, Hrun. reflexivity.
Qed.

Lemma fresh_failure_not_retried_witness :
  let w := world_of (Ret []) (fun _ => Raise (Exception "exit code 1")) (Ret tt) in
  run (main w (Some (request "hello" "c1")) None)
  = (Ret (ReplyError "exit code 1"),
     [ ListEvents (MEMORY_ID w) ACTOR_ID (PStr "c1") 10;
       Query (query_options None) (PStr "hello") ]).
Proof.
  intros w.
  apply (fresh_failure_not_retried w (request "hello" "c1") None None
           (Exception "exit code 1")); reflexivity.
Defined.

(** X14: a stored marker whose handle is blank, the bare prefix included,
    resolves to the empty handle, and the turn then starts a fresh
    session. *)
Theorem blank_marker_starts_fresh (w : World) (p : gmap string pyval)
    (context : option RequestContext) (events post : list pyval)
    (ws : string) (role : pyval) :
  truthy (default (PStr "") (p !! "prompt")) = true ->
  list_events w (MEMORY_ID w) ACTOR_ID (conversation_of p context) 10 = Ret events ->
  messages events = conversational_msg (PStr (encode ws)) role :: post ->
  blank ws = true ->
  fst (run (get_stored_session_id w (conversation_of p context))) = Ret (Some "") /\
  map resume (queries (snd (run (main w (Some p) context)))) = [None].
Proof.
  intros Hprompt Hlist Hmsgs Hws.
  assert (Hstored :
    fst (run (get_stored_session_id w (conversation_of p context))) = Ret (Some "")).
  { unfold run. rewrite get_stored_session_id_run, Hlist, scan_events_messages, Hmsgs.
    cbn [scan_payload]. rewrite scan_conversational_msg, (decode_blank _ Hws).
    reflexivity. }
  split; [exact Hstored|].
  rewrite (main_run w p context Hprompt). cbv zeta.
  rewrite (stored_of_run _ _ _ Hstored). cbn [truthy_opt PyStr.nonempty].
  destruct (run_client w (query_options None) _) as [msgs|e]; cbn [snd];
    rewrite queries_turn_trace; reflexivity.
Qed.

Lemma blank_marker_starts_fresh_witness :
  let w := world_of (Ret [stored_event [(PStr "__SESSION__:  ", "OTHER")]])
             (fun _ => answer "hi" "sess-9") (Ret tt) in
  fst (run (get_stored_session_id w (PStr "c1"))) = Ret (Some "") /\
  map resume (queries (snd (run (main w (Some (request "hello" "c1")) None)))) = [None].
Proof.
  intros w.
  apply (blank_marker_starts_fresh w (request "hello" "c1") None
           [stored_event [(PStr "__SESSION__:  ", "OTHER")]] [] "  " (PStr "OTHER"));
    vm_compute; reflexivity.
Defined.

(** X15: the handle saved by one turn is the resume hint of the next:
    when the store lists first a batch written by [save_session_id], whose
    prompt and response do not begin with the marker prefix and whose
    handle is non-empty, trimmed and free of the prefix, the first run of
    the agent resumes that handle. *)
Theorem next_turn_resumes_saved_handle (w : World) (p : gmap string pyval)
    (context : option RequestContext) (user_input : pyval)
    (response sid : string) (older : list pyval) :
  truthy (default (PStr "") (p !! "prompt")) = true ->
  list_events w (MEMORY_ID w) ACTOR_ID (conversation_of p context) 10
  = Ret (stored_event (saved_batch user_input response sid) :: older) ->
  content_decode user_input = None ->
  decode response = None ->
  PyStr.nonempty sid = true ->
  outer_space sid = false ->
  PyStr.contains MARKER_PREFIX sid = false ->
  exists later,
    snd (run (main w (Some p) context))
    = (ListEvents (MEMORY_ID w) ACTOR_ID (conversation_of p context) 10
       :: Query {| system_prompt := SYSTEM_PROMPT; max_turns := 10; resume := Some sid |}
                (default (PStr "") (p !! "prompt"))
       :: later).
Proof.
  intros Hprompt Hlist Hu Hr Hne Hsp Hocc.
  rewrite (main_run w p context Hprompt). cbv zeta.
  rewrite Hlist, scan_saved_batch, Hu, Hr, (decode_encode_id _ Hsp Hocc).
  cbn [truthy_opt]. rewrite Hne.
  assert (Hq : query_options (Some sid)
               = {| system_prompt := SYSTEM_PROMPT; max_turns := 10; resume := Some sid |})
    by (unfold query_options; cbn [truthy_opt]; now rewrite Hne).
  rewrite Hq. unfold turn_trace.
  repeat match goal with
         | |- context [if session_expired ?b then _ else _] =>
             destruct (session_expired b)
         | |- context [match run_client ?a ?b ?c with _ => _ end] =>
             destruct (run_client a b c) as [?msgs|?e]
         end; cbn [snd map app]; eauto.
Qed.

Lemma next_turn_resumes_saved_handle_witness :
  let w := world_of (Ret (stored_event (saved_batch (PStr "hello") "hi there" "sess-1")
                          :: []))
             (fun _ => answer "ok" "sess-2") (Ret tt) in
  exists later,
    snd (run (main w (Some (request "continue" "c1")) None))
    = (ListEvents (MEMORY_ID w) ACTOR_ID (PStr "c1") 10
       :: Query {| system_prompt := SYSTEM_PROMPT; max_turns := 10;
                   resume := Some "sess-1" |} (PStr "continue")
       :: later).
Proof.
  intros w.
  apply (next_turn_resumes_saved_handle w (request "continue" "c1") None
           (PStr "hello") "hi there" "sess-1" []); reflexivity.
Defined.

(** X16: every run of the agent in a turn is made with the system prompt
    of the module and at most ten turns; a resume hint is never the empty
    string, and only the first run of a turn can carry one. *)
Theorem agent_runs_options (w : World) (payload : option (gmap string pyval))
    (context : option RequestContext) :
  Forall (fun o => system_prompt o = SYSTEM_PROMPT /\ max_turns o = 10%Z
                   /\ resume o <> Some "")
         (queries (snd (run (main w payload context)))) /\
  Forall (fun o => resume o = None)
         (tail (queries (snd (run (main w payload context))))).
Proof.
  assert (Hinv : match payload with
                 | Some p => truthy (default (PStr "") (p !! "prompt")) = false
                 | None => True
                 end ->
                 queries (snd (run (main w payload context))) = []).
  { intros H. destruct (main_invalid w payload context H) as [err ->]. reflexivity. }
  destruct payload as [p|]; [|rewrite (Hinv I); split; constructor].
  destruct (truthy (default (PStr "") (p !! "prompt"))) eqn:Hprompt;
    [|rewrite (Hinv eq_refl); split; constructor].
  clear Hinv. rewrite (main_run w p context Hprompt). cbv zeta.
  repeat match goal with
         | |- context [if truthy_opt ?b then _ else _] => destruct (truthy_opt b)
         | |- context [if session_expired ?b then _ else _] =>
             destruct (session_expired b)
         | |- context [match run_client ?a ?b ?c with _ => _ end] =>
             destruct (run_client a b c) as [?msgs|?e]
         end; cbn [snd]; rewrite queries_turn_trace; cbn [tail];
    (split; repeat constructor; apply query_options_sound).
Qed.

(** X17: the classification of a failure depends on the presence of a
    signature only: a message classified as an expired session stays so
    inside any longer text. *)
Theorem classification_ignores_context (a msg b : string) :
  session_expired (PyStr.lower msg) = true ->
  session_expired (PyStr.lower (a ++ msg ++ b)) = true.
Proof.
  intros H. apply session_expired_signature, has_signature_context.
  apply session_expired_signature, H.
Qed.

Lemma classification_ignores_context_witness :
  session_expired
    (PyStr.lower ("ProcessError: " ++ "Command failed with Exit Code 1" ++ " (retry)"))
  = true.
Proof.
  apply (classification_ignores_context "ProcessError: "
           "Command failed with Exit Code 1" " (retry)").
  reflexivity.
Defined.

(** ** More on the codec *)
Section CodecEdges.

Lemma replace_from_length (old : string) (skip : nat) (s : string) :
  String.length (PyStr.replace_from old "" skip s) <= String.length s.
Proof.
  revert skip. induction s as [|c s IH]; intros skip; [reflexivity|].
  cbn [PyStr.replace_from String.length]. destruct skip as [|k].
  - destruct (PyStr.startswith (String c s) old).
    + cbn [String.append]. specialize (IH (String.length old - 1)). lia.
    + cbn [String.length]. specialize (IH 0). lia.
  - specialize (IH k). lia.
Qed.

Lemma replace_from_shorter (s : string) :
  PyStr.contains MARKER_PREFIX s = true ->
  String.length (PyStr.replace_from MARKER_PREFIX "" 0 s) < String.length s.
Proof.
  induction s as [|c s IH]; [discriminate|].
  cbn [PyStr.contains]. intros H.
  cbn [PyStr.replace_from String.length].
  destruct (PyStr.startswith (String c s) MARKER_PREFIX).
  - cbn [String.append].
    pose proof (replace_from_length MARKER_PREFIX (String.length MARKER_PREFIX - 1) s).
    lia.
  - cbn [orb] in H. specialize (IH H). cbn [String.length]. lia.
Qed.

Lemma lstrip_length (s : string) : String.length (PyStr.lstrip s) <= String.length s.
Proof.
  induction s as [|c s IH]; [reflexivity|].
  cbn [PyStr.lstrip]. destruct (PyStr.isspace c); cbn [String.length]; lia.
Qed.

Lemma rstrip_length (s : string) : String.length (PyStr.rstrip s) <= String.length s.
Proof.
  induction s as [|c s IH]; [reflexivity|].
  cbn [PyStr.rstrip]. destruct (PyStr.rstrip s) as [|d r].
  - destruct (PyStr.isspace c); cbn [String.length]; lia.
  - cbn [String.length] in *. lia.
Qed.

Lemma strip_length (s : string) : String.length (PyStr.strip s) <= String.length s.
Proof.
  unfold PyStr.strip. pose proof (rstrip_length (PyStr.lstrip s)).
  pose proof (lstrip_length s). lia.
Qed.

End CodecEdges.

(** X18: the round trip through the marker holds for the trimmed handles
    in which the prefix does not occur, and for no other handle: a handle
    with outer whitespace or with the prefix inside never comes back as it
    was written. *)
Theorem roundtrip_exactly_when_clean (h : string) :
  decode (encode h) = Some h
  <-> outer_space h = false /\ PyStr.contains MARKER_PREFIX h = false.
Proof.
  split.
  - rewrite decode_encode. intros H. injection H as H. split.
    + rewrite <- H. apply strip_trimmed.
    + destruct (PyStr.contains MARKER_PREFIX h) eqn:E; [|reflexivity].
      exfalso. pose proof (replace_from_shorter h E) as Hlt.
      pose proof (strip_length (PyStr.replace_from MARKER_PREFIX "" 0 h)) as Hle.
      rewrite H in Hle. lia.
  - intros [Hsp Hocc]. apply decode_encode_id; assumption.
Qed.

(** X19: a success reply names the conversation whose events were listed
    and to which the batch, if any, was given; this conversation id is
    never empty. *)
Theorem reply_names_the_conversation (w : World) (p : gmap string pyval)
    (context : option RequestContext) (response : string)
    (conversation_id : pyval) (session_id : option string) (t : list effect) :
  run (main w (Some p) context)
  = (Ret (ReplyOk response conversation_id session_id), t) ->
  conversation_id = conversation_of p context /\
  truthy conversation_id = true /\
  (exists later, t = ListEvents (MEMORY_ID w) ACTOR_ID conversation_id 10 :: later) /\
  Forall (fun b => fst b = conversation_id) (appends t).
Proof.
  destruct (truthy (default (PStr "") (p !! "prompt"))) eqn:Hprompt.
  - rewrite (main_run w p context Hprompt). cbv zeta.
    assert (Htruthy : truthy (conversation_of p context) = true).
    { unfold conversation_of.
      destruct (truthy (default PNone (p !! "conversation_id"))) eqn:E; [exact E|].
      destruct context as [[[s|]]|]; cbn; try reflexivity.
      destruct (PyStr.nonempty s) eqn:Hs; cbn; [exact Hs | reflexivity]. }
    repeat match goal with
           | |- context [if truthy_opt ?b then _ else _] => destruct (truthy_opt b)
           | |- context [if session_expired ?b then _ else _] =>
               destruct (session_expired b)
           | |- context [match run_client ?a ?b ?c with _ => _ end] =>
               destruct (run_client a b c) as [?msgs|?e]
           end; intros H; try discriminate H;
      injection H as _ <- _ <-;
      (split; [reflexivity|]); (split; [exact Htruthy|]);
      (split; [unfold turn_trace; eauto|]);
      rewrite appends_turn_trace;
      repeat match goal with
             | |- context [match snd (receive ?m [] None) with _ => _ end] =>
                 destruct (snd (receive m [] None)) as [?sid|]
             | |- context [if PyStr.nonempty ?s then _ else _] =>
                 destruct (PyStr.nonempty s)
             end; repeat constructor.
  - destruct (main_invalid w (Some p) context Hprompt) as [err ->]. discriminate.
Qed.

Lemma reply_names_the_conversation_witness :
  let w := world_of (Ret []) (fun _ => answer "hi there" "sess-1") (Ret tt) in
  PStr "ctx-7" = conversation_of {[ "prompt" := PStr "hello" ]}
                   (Some {| ctx_session_id := Some "ctx-7" |}) /\
  truthy (PStr "ctx-7") = true.
Proof.
  intros w.
  destruct (reply_names_the_conversation w {[ "prompt" := PStr "hello" ]}
              (Some {| ctx_session_id := Some "ctx-7" |}) "hi there" (PStr "ctx-7")
              (Some "sess-1")
              [ ListEvents (MEMORY_ID w) ACTOR_ID (PStr "ctx-7") 10;
                Query (query_options None) (PStr "hello");
                CreateEvent (MEMORY_ID w) ACTOR_ID (PStr "ctx-7")
                  (saved_batch (PStr "hello") "hi there" "sess-1") ])
    as (H1 & H2 & _).
  - vm_compute. reflexivity.
  - split; [exact H1 | exact H2].
Defined.


(** ** A failing append *)

(** C8: in a turn whose deciding run of the agent succeeded with a
    non-empty session handle, and in which the store raises on the append,
    the append is made and fails, the failure is swallowed, and the reply
    is the success reply, with the response, the conversation and the
    session handle; the run is the one made when the append succeeds. *)
Theorem persistence_failure_swallowed (w : World) (p : gmap string pyval)
    (context : option RequestContext) (stored : option string)
    (msgs : list Message) (sid : string) (e : exn) :
  truthy (default (PStr "") (p !! "prompt")) = true ->
  fst (run (get_stored_session_id w (conversation_of p context))) = Ret stored ->
  decisive_run w (default (PStr "") (p !! "prompt")) stored msgs ->
  snd (receive msgs [] None) = Some sid ->
  PyStr.nonempty sid = true ->
  (forall m a c b, create_event w m a c b = Raise e) ->
  fst (run (main w (Some p) context))
  = Ret (ReplyOk (PyStr.join PyStr.newline (fst (receive msgs [] None)))
                 (conversation_of p context) (Some sid)) /\
  appends (snd (run (main w (Some p) context)))
  = [ (conversation_of p context,
       [ (default (PStr "") (p !! "prompt"), "USER");
         (PStr (PyStr.join PyStr.newline (fst (receive msgs [] None))), "ASSISTANT");
         (PStr (encode sid), "OTHER") ]) ] /\
  create_event w (MEMORY_ID w) ACTOR_ID (conversation_of p context)
    [ (default (PStr "") (p !! "prompt"), "USER");
      (PStr (PyStr.join PyStr.newline (fst (receive msgs [] None))), "ASSISTANT");
      (PStr (encode sid), "OTHER") ]
  = Raise e /\
  run (main w (Some p) context)
  = run (main (with_create_event w (fun _ _ _ _ => Ret tt)) (Some p) context).
Proof.
  intros Hprompt Hstored Hrun Hsid Hne Hstore.
  split; [|split; [|split]].
  - rewrite (main_run w p context Hprompt). cbv zeta.
    rewrite (stored_of_run _ _ _ Hstored). unfold decisive_run in Hrun.
    destruct (truthy_opt stored).
    + destruct Hrun as [-> | (e1 & -> & -> & ->)]; cbn [fst]; now rewrite Hsid.
    + rewrite Hrun. cbn [fst]. now rewrite Hsid.
  - rewrite (main_run w p context Hprompt). cbv zeta.
    rewrite (stored_of_run _ _ _ Hstored). unfold decisive_run in Hrun.
    destruct (truthy_opt stored).
    + destruct Hrun as [-> | (e1 & -> & -> & ->)]; cbn [snd];
        rewrite appends_turn_trace, Hsid, Hne; reflexivity.
    + rewrite Hrun. cbn [snd]. rewrite appends_turn_trace, Hsid, Hne. reflexivity.
  - apply Hstore.
  - unfold run. now rewrite main_any_store.
Qed.

Lemma persistence_failure_swallowed_witness :
  let w := world_of (Ret []) (fun _ => answer "hi there" "sess-1")
             (Raise (Exception "throttled")) in
  fst (run (main w (Some (request "hello" "c1")) None))
  = Ret (ReplyOk "hi there" (PStr "c1") (Some "sess-1")) /\
  appends (snd (run (main w (Some (request "hello" "c1")) None)))
  = [ (PStr "c1",
       [ (PStr "hello", "USER"); (PStr "hi there", "ASSISTANT");
         (PStr "__SESSION__:sess-1", "OTHER") ]) ].
Proof.
  intros w.
  destruct (persistence_failure_swallowed w (request "hello" "c1") None None
              [AssistantMessage [TextBlock "hi there"]; ResultMessage "sess-1"]
              "sess-1" (Exception "throttled"))
    as (Hreply & Happends & _); try reflexivity.
  split; [exact Hreply | exact Happends].
Defined.
